(** * XsdLibrary: a catalogue of XSD documents keyed by target namespace

    A shallow embedding of [XsdLibrary] (the AMD module built on top of
    [Library], [xsd] and the bundled [basetypes.xsd]) together with the
    properties of its registration, lookup, chain-walking and facet
    collection methods. *)

From Stdlib Require Import Ascii.
From stdpp Require Import base option list strings gmap.

Local Open Scope string_scope.
Local Open Scope list_scope.

(** ** The DOM values the library handles *)

(** An attribute of an element: its namespace, prefix, local name and value. *)
Record Attr := mkAttr {
  attrNamespaceURI : option string;
  attrPrefix : option string;
  attrLocalName : string;
  attrValue : string
}.

(** An element: [namespaceURI] is [None] for JavaScript's [null]. *)
#[warnings="-register-all"] Inductive Element := mkElement {
  namespaceURI : option string;
  localName : string;
  attributes : list Attr;
  children : list Element
}.

Record Document := mkDocument { documentElement : Element }.

(** What [xsd.findElement] is handed: a document or an element. *)
Inductive Node :=
| DocumentNode (d : Document)
| ElementNode (e : Element).

Coercion DocumentNode : Document >-> Node.
Coercion ElementNode : Element >-> Node.

(** An instance node together with its [parentNode] chain, nearest ancestor
    first: the tree itself carries no upward links. *)
Record XmlNode := mkXmlNode {
  element : Element;
  parentChain : list Element
}.

(** The qualified name of an attribute, as [getAttribute] compares it. *)
Definition attrQualifiedName (a : Attr) : string :=
  match attrPrefix a with
  | Some p => p +:+ ":" +:+ attrLocalName a
  | None => attrLocalName a
  end.

(** [e.getAttribute(qname)]: the value of the first attribute with that
    qualified name, [None] (null) when there is none. *)
Definition getAttribute (e : Element) (qname : string) : option string :=
  attrValue <$>
    find (fun a => bool_decide (attrQualifiedName a = qname)) (attributes e).

(** [e.getAttributeNS(ns, local)]. *)
Definition getAttributeNS (e : Element) (ns : option string) (local : string)
  : option string :=
  attrValue <$>
    find (fun a => bool_decide (attrNamespaceURI a = ns) &&
                   bool_decide (attrLocalName a = local)) (attributes e).

(** ** JavaScript values and outcomes *)

(** Truthiness of a value that is a string, [null] or [undefined]. *)
Definition truthy (v : option string) : bool :=
  match v with
  | Some s => negb (bool_decide (s = ""))
  | None => false
  end.

(** [a || b] on such values. *)
Definition js_or (a b : option string) : option string :=
  if truthy a then a else b.

(** The property key a value is coerced to by [obj[v]]. *)
Definition propertyKey (v : option string) : string :=
  match v with
  | Some s => s
  | None => "null"
  end.

(** The only exception the methods can raise by themselves: reading a
    property of [null] or [undefined]. *)
Inductive JsError := TypeError.

Inductive outcome (A : Type) :=
| Return (a : A)
| Throw (e : JsError).

Arguments Return {A} a.
Arguments Throw {A} e.

#[global] Instance outcome_ret : MRet outcome := fun A a => Return a.

#[global] Instance outcome_bind : MBind outcome := fun A B k m =>
  match m with
  | Return a => k a
  | Throw e => Throw e
  end.

(** ** The [xsd] collaborator *)

Module xsd.

(** The value [getTypeFromNodeAttr] returns: [type.namespaceURI] and
    [type.name]. *)
Record QName := mkQName {
  namespaceURI : string;
  name : string
}.

(** The node-level queries of the [xsd] module that the library calls, with
    the two namespace constants it reads.  A result that the library tests
    for truthiness is an [option]. *)
Class Api := {
  xs : string;
  xsi : string;
  parseToDom : string -> Document;
  findElement : Node -> string -> option Element;
  (** what [findElement] does when it is handed [undefined] *)
  findElement_undefined : string -> outcome (option Element);
  findTypeByName : Document -> string -> option Element;
  getTypeFromNodeAttr : Element -> string -> option string -> option QName;
  getEmbeddedType : Element -> option Element;
  findRestrictingFacets : Element -> list Element;
  getComplexTypeContent : Element -> Element;
  getComplexTypeElements : Element -> list Element;
  getComplexTypeAsserts : Element -> list Element
}.

(** Modelled from the spec: [getFirstFilteredAncestor(node, predicate)] of
    the [xsd] module is not part of the sources.  It walks the ancestors of [node] from the
    nearest one outwards, invokes the predicate on each and returns the
    nearest one for which it holds, the caller having observed every
    ancestor visited on the way.  The predicate is a closure over the
    caller's variables, so it is given the caller's state and returns the
    new one. *)
Fixpoint firstFiltered {S : Type} (ancestors : list Element)
    (predicate : Element -> S -> S * bool) (s : S) : S * option Element :=
  match ancestors with
  | [] => (s, None)
  | current :: rest =>
      let '(s', found) := predicate current s in
      if found then (s', Some current) else firstFiltered rest predicate s'
  end.

(** Modelled from the spec: the ancestors that [getFirstFilteredAncestor]
    walks are the [parentNode] chain of the node. *)
Definition getFirstFilteredAncestor {S : Type} (node : XmlNode)
    (predicate : Element -> S -> S * bool) (s : S) : S * option Element :=
  firstFiltered (parentChain node) predicate s.

End xsd.

(** ** The [Library] base class *)

Module Library.

(** The store of a library: the object [items], keyed by name. *)
Abbreviation items := (gmap string (list Document)).

(** Modelled from the spec: [exists(key)] of the [Library] base class, which
    is not part of the sources, tells whether a value is registered under
    the key. *)
Definition exists_ (this : items) (name : option string) : bool :=
  bool_decide (is_Some (this !! propertyKey name)).

(** Modelled from the spec: [getItem(key)] of the [Library] base class, which
    is not part of the sources, returns the value registered under the key,
    or nothing. *)
Definition getItem (this : items) (name : option string)
  : option (list Document) :=
  this !! propertyKey name.

(** Modelled from the spec: [init(items)] of the [Library] base class, which
    is not part of the sources, starts from an empty store and registers each
    initial item through the [addItem] of the object it is called on, in
    order and without a name. *)
Definition init (addItem : items -> Document -> option string -> items)
    (initItems : list Document) : items :=
  fold_left (fun this item => addItem this item None) initItems ∅.

End Library.

(** ** The [XsdLibrary] methods *)

Module XsdLibrary.
Section methods.

Context `{X : xsd.Api}.

(** The text of the bundled [basetypes.xsd]. *)
Variable basetypesXsd : string.

Abbreviation items := (gmap string (list Document)).

Definition addItem (this : items) (def : Document) (name : option string)
  : items :=
  let ns := js_or name
              (getAttributeNS (documentElement def) None "targetNamespace") in
  let xsdCollection :=
    if Library.exists_ this ns
    then default [] (Library.getItem this ns)
    else [] in
  <[propertyKey ns := xsdCollection ++ [def]]> this.

Definition init (defs : option (list Document)) : items :=
  let defs := default [] defs in
  let initDefs := [xsd.parseToDom basetypesXsd] ++ defs in
  Library.init addItem initDefs.

(** The [for] loop of [findElement] over the documents of a namespace. *)
Fixpoint findElement_loop (xsds : list Document) (name : string)
  : option Element :=
  match xsds with
  | [] => None
  | d :: rest =>
      match xsd.findElement (DocumentNode d) name with
      | Some element => Some element
      | None => findElement_loop rest name
      end
  end.

Definition findElement (this : items) (namespace name : string)
  : option Element :=
  let xsds := default [] (Library.getItem this (Some namespace)) in
  findElement_loop xsds name.

Fixpoint findTypeByName_loop (xsds : list Document) (name : string)
  : option Element :=
  match xsds with
  | [] => None
  | d :: rest =>
      match xsd.findTypeByName d name with
      | Some xsdNode => Some xsdNode
      | None => findTypeByName_loop rest name
      end
  end.

Definition findTypeByName (this : items) (namespace name : string)
  : option Element :=
  let xsds := default [] (Library.getItem this (Some namespace)) in
  findTypeByName_loop xsds name.

Definition findTypeDefinitionFromNodeAttr (this : items) (node : Element)
    (typeAttr : string) (typeAttrNS : option string) : option Element :=
  match xsd.getTypeFromNodeAttr node typeAttr typeAttrNS with
  | Some type => findTypeByName this (xsd.namespaceURI type) (xsd.name type)
  | None => None
  end.

Definition findElementType (this : items) (elem : Element)
  : outcome (option Element) :=
  let tdef := xsd.getTypeFromNodeAttr elem "type" None in
  match xsd.getEmbeddedType elem with
  | Some embedded => Return (Some embedded)
  | None =>
      match tdef with
      | Some tdef =>
          Return (findTypeByName this (xsd.namespaceURI tdef) (xsd.name tdef))
      | None => Throw TypeError        (* tdef.namespaceURI on null *)
      end
  end.

(** [xsdNode] is [None] when the caller hands in [null] or [undefined]. *)
Definition findXsdSubNode (this : items) (xsdNode : option Element)
    (name : string) : outcome (option Element) :=
  match xsdNode with
  | None => Throw TypeError            (* xsdNode.localName on null *)
  | Some xsdNode =>
      if bool_decide (localName xsdNode = "element") then
        match findTypeDefinitionFromNodeAttr this xsdNode "type" None with
        | Some typeDef => Return (xsd.findElement (ElementNode typeDef) name)
        | None =>
            match children xsdNode !! 0%nat with
            | Some child => Return (xsd.findElement (ElementNode child) name)
            | None => xsd.findElement_undefined name
            end
        end
      else Return (xsd.findElement (ElementNode xsdNode) name)
  end.

(** The predicate [findElementForXmlNode] hands to
    [getFirstFilteredAncestor]: it pushes onto [parents] and answers whether
    the ancestor carries an [xsi:type]. *)
Definition collectParent (current : Element) (parents : list Element)
  : list Element * bool :=
  (parents ++ [current],
   bool_decide (is_Some (xsd.getTypeFromNodeAttr current "type" (Some xsd.xsi)))).

(** The body of the [each] over the reversed [parents], threading the
    captured variable [xsdNode]. *)
Fixpoint eachParent (this : items) (parents : list Element)
    (xsdNode : option Element) : outcome (option Element) :=
  match parents with
  | [] => Return xsdNode
  | currParent :: rest =>
      xsdNode' ←
        match xsdNode with
        | Some _ => findXsdSubNode this xsdNode (localName currParent)
        | None =>
            Return (findTypeDefinitionFromNodeAttr this currParent "type"
                      (Some xsd.xsi))
        end;
      eachParent this rest xsdNode'
  end.

Definition findElementForXmlNode (this : items) (node : XmlNode)
  : outcome (option Element) :=
  let parents := (xsd.getFirstFilteredAncestor node collectParent []).1 in
  xsdNode ← eachParent this (reverse parents) None;
  findXsdSubNode this xsdNode (localName (element node)).

(** The [console.log] of the source is not modelled. *)
Definition findRestrictedType (this : items) (node : Element)
  : option Element :=
  let element :=
    find (fun child =>
            bool_decide (namespaceURI child = Some xsd.xs) &&
            bool_decide (localName child = "restriction"))
         (children node) in
  match element with
  | Some element => findTypeDefinitionFromNodeAttr this element "base" None
  | None => None
  end.

Definition findExtendedType (this : items) (node : Element)
  : option Element :=
  let node :=
    if bool_decide (localName node = "complexType")
    then xsd.getComplexTypeContent node
    else node in
  let element :=
    find (fun child =>
            bool_decide (namespaceURI child = Some xsd.xs) &&
            bool_decide (localName child = "extension"))
         (children node) in
  match element with
  | Some element => findTypeDefinitionFromNodeAttr this element "base" None
  | None => None
  end.

(** The [do ... while (base)] of [findBaseTypeFor].  Every evaluation of the
    body takes one unit of [fuel]; [None] is a run that has not returned
    within the fuel given. *)
Fixpoint findBaseTypeFor_loop (fuel : nat) (this : items) (curr : Element)
  : option (option string) :=
  match fuel with
  | O => None
  | S fuel =>
      match findRestrictedType this curr with
      | Some base => findBaseTypeFor_loop fuel this base
      | None => Some (getAttribute curr "name")
      end
  end.

Definition findBaseTypeFor (fuel : nat) (this : items) (node : Element)
  : option (option string) :=
  findBaseTypeFor_loop fuel this node.

(** An entry of the array [collectFacets] returns: a facet node pushed by
    itself, or the array of one level's enumeration facets. *)
Inductive FacetEntry :=
| Facet (facet : Element)
| Enums (enums : list Element).

(** The variables of [collectFacets] that [processFacet] closes over. *)
Record FacetState := mkFacetState {
  facets : list FacetEntry;
  enums : list Element;
  foundFacetTypes : list string
}.

Definition processFacet (st : FacetState) (facet : Element) : FacetState :=
  let fname := localName facet in
  let isEnum := bool_decide (fname = "enumeration") in
  let isAssertion := bool_decide (fname = "assertion") in
  let isAlreadyFound := bool_decide (fname ∈ foundFacetTypes st) in
  let isFixed :=
    negb isEnum &&
    (isAssertion || bool_decide (getAttribute facet "fixed" = Some "true")) in
  if negb isAlreadyFound || isFixed then
    let st :=
      if isEnum
      then mkFacetState (facets st) (enums st ++ [facet]) (foundFacetTypes st)
      else mkFacetState (facets st ++ [Facet facet]) (enums st)
                        (foundFacetTypes st) in
    if negb isEnum
    then mkFacetState (facets st) (enums st) (foundFacetTypes st ++ [fname])
    else st
  else st.

(** One evaluation of the body of the [while (currType)] loop, up to the
    assignment of the next [currType]. *)
Definition collectLevel (st : FacetState) (currType : Element) : FacetState :=
  let currFacets := xsd.findRestrictingFacets currType in
  let st := mkFacetState (facets st) [] (foundFacetTypes st) in
  let st := fold_left processFacet currFacets st in
  if bool_decide (length (enums st) ≠ 0%nat)
  then mkFacetState (facets st ++ [Enums (enums st)]) (enums st)
                    (foundFacetTypes st ++ ["enumeration"])
  else st.

Fixpoint collectFacets_loop (fuel : nat) (this : items) (st : FacetState)
    (currType : option Element) : option (list FacetEntry) :=
  match currType with
  | None => Some (facets st)
  | Some currType =>
      match fuel with
      | O => None
      | S fuel =>
          collectFacets_loop fuel this (collectLevel st currType)
            (findRestrictedType this currType)
      end
  end.

Definition collectFacets (fuel : nat) (this : items) (simpleType : Element)
  : option (list FacetEntry) :=
  collectFacets_loop fuel this (mkFacetState [] [] []) (Some simpleType).

(** The [while (curr)] loop shared by [getComplexTypeElements] and
    [getComplexTypeAsserts]; [declared] is the [xsd] query each of them
    calls on the current type. *)
Fixpoint complexType_loop (declared : Element -> list Element) (fuel : nat)
    (this : items) (elems : list Element) (curr : option Element)
  : option (list Element) :=
  match curr with
  | None => Some elems
  | Some curr =>
      match fuel with
      | O => None
      | S fuel =>
          complexType_loop declared fuel this (elems ++ declared curr)
            (findExtendedType this curr)
      end
  end.

Definition getComplexTypeElements (fuel : nat) (this : items)
    (complexType : Element) : option (list Element) :=
  complexType_loop xsd.getComplexTypeElements fuel this [] (Some complexType).

Definition getComplexTypeAsserts (fuel : nat) (this : items)
    (complexType : Element) : option (list Element) :=
  complexType_loop xsd.getComplexTypeAsserts fuel this [] (Some complexType).

End methods.
End XsdLibrary.

(** ** Derivation chains *)

(** [Chain step t ts]: following [step] from [t] visits exactly the types
    [ts], [t] first, and stops at the last one, which has no next type. *)
Inductive Chain (step : Element -> option Element)
  : Element -> list Element -> Prop :=
| Chain_end t : step t = None -> Chain step t [t]
| Chain_next t base ts :
    step t = Some base -> Chain step base ts -> Chain step t (t :: ts).

(** ** A small [xsd] implementation to run the methods on *)

Module Sample.

Definition xs : string := "http://www.w3.org/2001/XMLSchema".
Definition xsi : string := "http://www.w3.org/2001/XMLSchema-instance".
Definition tns : string := "urn:sample".

Definition attr (name value : string) : Attr := mkAttr None None name value.

(** An element of the XML Schema namespace. *)
Definition xsElem (local : string) (attrs : list Attr) (kids : list Element)
  : Element :=
  mkElement (Some xs) local attrs kids.

Definition hasName (name : string) (e : Element) : bool :=
  bool_decide (getAttribute e "name" = Some name).

Definition isXs (local : string) (e : Element) : bool :=
  bool_decide (namespaceURI e = Some xs) && bool_decide (localName e = local).

(** The descendants of an element down to a depth, in document order. *)
Fixpoint descendants (depth : nat) (e : Element) : list Element :=
  match depth with
  | O => []
  | S depth => flat_map (fun c => c :: descendants depth c) (children e)
  end.

Definition nodeElement (n : Node) : Element :=
  match n with
  | DocumentNode d => documentElement d
  | ElementNode e => e
  end.

Fixpoint splitPrefix (s : string) : option (string * string) :=
  match s with
  | EmptyString => None
  | String c rest =>
      if Ascii.eqb c ":"%char then Some (EmptyString, rest)
      else match splitPrefix rest with
           | Some (p, l) => Some (String c p, l)
           | None => None
           end
  end.

Definition resolve (value : string) : xsd.QName :=
  match splitPrefix value with
  | Some (p, l) =>
      xsd.mkQName (if bool_decide (p = "xs") then xs else tns) l
  | None => xsd.mkQName tns value
  end.

Definition basetypes : Document :=
  mkDocument
    (xsElem "schema" [attr "targetNamespace" xs]
       [xsElem "simpleType" [attr "name" "string"] [];
        xsElem "simpleType" [attr "name" "decimal"] []]).

#[export] Instance api : xsd.Api := {|
  xsd.xs := xs;
  xsd.xsi := xsi;
  xsd.parseToDom := fun _ => basetypes;
  xsd.findElement := fun n name =>
    find (fun e => isXs "element" e && hasName name e)
         (descendants 4 (nodeElement n));
  xsd.findElement_undefined := fun _ => Throw TypeError;
  xsd.findTypeByName := fun d name =>
    find (fun e => (isXs "simpleType" e || isXs "complexType" e) &&
                   hasName name e)
         (children (documentElement d));
  xsd.getTypeFromNodeAttr := fun e a ans =>
    resolve <$> getAttributeNS e ans a;
  xsd.getEmbeddedType := fun e =>
    find (fun c => isXs "simpleType" c || isXs "complexType" c) (children e);
  xsd.findRestrictingFacets := fun t =>
    flat_map children (filter (fun c => isXs "restriction" c) (children t));
  xsd.getComplexTypeContent := fun t =>
    default t (find (isXs "complexContent") (children t));
  xsd.getComplexTypeElements := fun t =>
    filter (fun e => isXs "element" e) (descendants 4 t);
  xsd.getComplexTypeAsserts := fun t =>
    filter (fun e => isXs "assert" e) (descendants 4 t)
|}.

Definition schema (kids : list Element) : Document :=
  mkDocument (xsElem "schema" [attr "targetNamespace" tns] kids).

(** A simple type restricting [base] with the given facets. *)
Definition simpleType (name base : string) (fs : list Element) : Element :=
  xsElem "simpleType" [attr "name" name]
    [xsElem "restriction" [attr "base" base] fs].

Definition facet (kind value : string) : Element :=
  xsElem kind [attr "value" value] [].

Definition fixedFacet (kind value : string) : Element :=
  xsElem kind [attr "value" value; attr "fixed" "true"] [].

End Sample.

(** ** Registration histories *)

Section registration.

Context `{X : xsd.Api}.

(** A call [addItem(def, name)]; [name] is [None] when it is left out. *)
Definition Registration : Type := Document * option string.

(** The key of the bucket a call [addItem(def, name)] writes to. *)
Definition registrationKey (r : Registration) : string :=
  propertyKey
    (js_or r.2 (getAttributeNS (documentElement r.1) None "targetNamespace")).

(** A sequence of [addItem] calls on a catalogue. *)
Definition addItems (this : gmap string (list Document))
    (regs : list Registration) : gmap string (list Document) :=
  fold_left (fun this r => XsdLibrary.addItem this r.1 r.2) regs this.

(** The documents a history registers under one key, in call order. *)
Definition registeredUnder (key : string) (regs : list Registration)
  : list Document :=
  fst <$> filter (fun r => registrationKey r = key) regs.

(** The calls construction makes: the built-in document, then the initial
    documents, all without a name. *)
Definition initialRegistrations (basetypesXsd : string)
    (defs : option (list Document)) : list Registration :=
  (fun d => (d, None)) <$> (xsd.parseToDom basetypesXsd :: default [] defs).

End registration.

(** ** What the walks are compared with *)

Section walks.

Context `{X : xsd.Api}.

Definition isEnumeration (facet : Element) : bool :=
  bool_decide (localName facet = "enumeration").

(** A facet that is not an enumeration and is an assertion or carries
    [fixed="true"]. *)
Definition isFixedFacet (facet : Element) : bool :=
  negb (isEnumeration facet) &&
  (bool_decide (localName facet = "assertion") ||
   bool_decide (getAttribute facet "fixed" = Some "true")).

(** The enumeration facets one level declares, in document order. *)
Definition levelEnums (t : Element) : list Element :=
  filter (fun f => isEnumeration f = true) (xsd.findRestrictingFacets t).

(** All facets of a chain in the order the walk meets them. *)
Definition walkFacets (ts : list Element) : list Element :=
  ts ≫= xsd.findRestrictingFacets.

(** The enumeration groups of a result, and its facets pushed singly. *)
Definition enumGroups (r : list XsdLibrary.FacetEntry) : list (list Element) :=
  omap (fun e => match e with
                 | XsdLibrary.Enums g => Some g
                 | XsdLibrary.Facet _ => None
                 end) r.

Definition plainFacets (r : list XsdLibrary.FacetEntry) : list Element :=
  omap (fun e => match e with
                 | XsdLibrary.Facet f => Some f
                 | XsdLibrary.Enums _ => None
                 end) r.

(** [selectAfter keep before l] keeps the elements [x] of [l] for which
    [keep] holds of [x] and of everything that precedes it. *)
Fixpoint selectAfter {A} (keep : list A -> A -> bool) (before l : list A)
  : list A :=
  match l with
  | [] => []
  | x :: l => (if keep before x then [x] else []) ++
              selectAfter keep (before ++ [x]) l
  end.

(** A facet that is not an enumeration is recorded when it is fixed or when
    no facet met before it has its kind. *)
Definition recordedPlain (before : list Element) (facet : Element) : bool :=
  negb (isEnumeration facet) &&
  (isFixedFacet facet ||
   bool_decide (localName facet ∉ localName <$> before)).

Definition hasXsiType (e : Element) : bool :=
  bool_decide (is_Some (xsd.getTypeFromNodeAttr e "type" (Some xsd.xsi))).

(** The ancestors [findElementForXmlNode] collects: those up to and
    including the nearest one that carries an [xsi:type]. *)
Fixpoint collectedParents (ancestors : list Element) : list Element :=
  match ancestors with
  | [] => []
  | a :: rest => if hasXsiType a then [a] else a :: collectedParents rest
  end.

(** Successive descents by [findXsdSubNode] along a list of names. *)
Fixpoint descend (this : gmap string (list Document))
    (xsdNode : option Element) (names : list string)
  : outcome (option Element) :=
  match names with
  | [] => Return xsdNode
  | name :: rest =>
      found ← XsdLibrary.findXsdSubNode this xsdNode name;
      descend this found rest
  end.

End walks.

(** ** Sample schemas and instance nodes *)

Module Examples.
Import Sample.

(** Two simple types that restrict each other. *)
Definition typeA_cyclic : Element := simpleType "A" "B" [].
Definition typeB_cyclic : Element := simpleType "B" "A" [].
Definition cyclicLibrary : gmap string (list Document) :=
  XsdLibrary.init "" (Some [schema [typeA_cyclic; typeB_cyclic]]).

(** [Colour] restricts [Base], which restricts [xs:string]; both declare an
    enumeration. *)
Definition enumRed : Element := facet "enumeration" "red".
Definition enumBlue : Element := facet "enumeration" "blue".
Definition typeColour : Element := simpleType "Colour" "Base" [enumRed].
Definition typeBase : Element := simpleType "Base" "xs:string" [enumBlue].
Definition typeString : Element := xsElem "simpleType" [attr "name" "string"] [].
Definition enumLibrary : gmap string (list Document) :=
  XsdLibrary.init "" (Some [schema [typeColour; typeBase]]).

(** [Price] fixes [totalDigits] and restricts [Amount], which declares
    [totalDigits] without fixing it. *)
Definition digitsFixed : Element := fixedFacet "totalDigits" "3".
Definition digitsPlain : Element := facet "totalDigits" "5".
Definition typePrice : Element := simpleType "Price" "Amount" [digitsFixed].
Definition typeAmount : Element := simpleType "Amount" "xs:decimal" [digitsPlain].
Definition typeDecimal : Element := xsElem "simpleType" [attr "name" "decimal"] [].
Definition digitsLibrary : gmap string (list Document) :=
  XsdLibrary.init "" (Some [schema [typePrice; typeAmount]]).

(** A document without a [targetNamespace]. *)
Definition anonymousDocument : Document :=
  mkDocument (xsElem "schema" [] [typeColour]).

(** Two documents of one namespace that both declare a type [T]. *)
Definition firstT : Element := simpleType "T" "xs:string" [facet "maxLength" "1"].
Definition secondT : Element := simpleType "T" "xs:string" [facet "maxLength" "2"].
Definition firstDocument : Document := schema [firstT].
Definition secondDocument : Document := schema [secondT].

(** A schema with a root element [root] holding [mid] holding [item], and
    the named type [RootType] of the same shape. *)
Definition itemDef : Element :=
  xsElem "element" [attr "name" "item"; attr "type" "xs:string"] [].
Definition midDef : Element :=
  xsElem "element" [attr "name" "mid"]
    [xsElem "complexType" [] [xsElem "sequence" [] [itemDef]]].
Definition rootType : Element :=
  xsElem "complexType" [attr "name" "RootType"]
    [xsElem "sequence" [] [midDef]].
Definition rootDef : Element :=
  xsElem "element" [attr "name" "root"; attr "type" "RootType"] [].
Definition treeLibrary : gmap string (list Document) :=
  XsdLibrary.init "" (Some [schema [rootDef; rootType]]).

(** Instance elements: [root], with and without an [xsi:type], [mid], an
    element [ghost] the schema does not know, and [item]. *)
Definition instanceElem (local : string) (attrs : list Attr) : Element :=
  mkElement (Some tns) local attrs [].
Definition xsiType (value : string) : Attr :=
  mkAttr (Some xsi) (Some "xsi") "type" value.
Definition rootPlain : Element := instanceElem "root" [].
Definition rootTyped : Element := instanceElem "root" [xsiType "RootType"].
Definition midElem : Element := instanceElem "mid" [].
Definition ghostElem : Element := instanceElem "ghost" [].
Definition itemElem : Element := instanceElem "item" [].

(** [mid] directly under a [root] without [xsi:type]. *)
Definition midUnderPlainRoot : XmlNode := mkXmlNode midElem [rootPlain].
(** [item] inside [mid] inside a [root] that carries [xsi:type]. *)
Definition itemUnderTypedRoot : XmlNode :=
  mkXmlNode itemElem [midElem; rootTyped].
(** [item] inside [ghost] inside a typed [root]. *)
Definition itemUnderGhost : XmlNode :=
  mkXmlNode itemElem [ghostElem; rootTyped].

(** An element declaration with neither a [type] attribute nor an embedded
    type. *)
Definition bareElement : Element := xsElem "element" [attr "name" "bare"] [].

(** [Derived] extends [Parent]; each declares one element and one assert. *)
Definition assertOf (test : string) : Element :=
  xsElem "assert" [attr "test" test] [].
Definition elemOf (name : string) : Element :=
  xsElem "element" [attr "name" name; attr "type" "xs:string"] [].
Definition typeParent : Element :=
  xsElem "complexType" [attr "name" "Parent"]
    [xsElem "sequence" [] [elemOf "a"]; assertOf "pa"].
Definition typeDerived : Element :=
  xsElem "complexType" [attr "name" "Derived"]
    [xsElem "complexContent" []
       [xsElem "extension" [attr "base" "Parent"]
          [xsElem "sequence" [] [elemOf "a"]; assertOf "da"]]].
Definition extensionLibrary : gmap string (list Document) :=
  XsdLibrary.init "" (Some [schema [typeDerived; typeParent]]).

End Examples.

(** ** [findTypeByName] over an [xsd] that answers with arrays *)

(** The other version of the module differs in [findTypeByName]: there
    [xsd.findTypeByName] returns the array of the matching definitions and
    the method answers with the first entry of the first array that is not
    empty. *)
Module XsdLibraryArrays.
Section methods.

(** [xsd.findTypeByName] as that version consumes it. *)
Variable xsd_findTypeByName : Document -> string -> list Element.

Fixpoint findTypeByName_loop (xsds : list Document) (name : string)
  : option Element :=
  match xsds with
  | [] => None
  | d :: rest =>
      let xsdNodes := xsd_findTypeByName d name in
      if bool_decide (0 < length xsdNodes)%nat
      then xsdNodes !! 0%nat
      else findTypeByName_loop rest name
  end.

Definition findTypeByName (this : gmap string (list Document))
    (namespace name : string) : option Element :=
  let xsds := default [] (Library.getItem this (Some namespace)) in
  findTypeByName_loop xsds name.

End methods.
End XsdLibraryArrays.

(** ** The result of facet collection, level by level *)

Section levels.

Context `{X : xsd.Api}.

(** What the levels [ts] add to the result, given the facets met before them
    and whether an enumeration group was pushed before them: for each level
    its recorded single facets, then its group of enumerations if it is the
    first level to have any. *)
Fixpoint levelEntries (before : list Element) (enumFound : bool)
    (ts : list Element) : list XsdLibrary.FacetEntry :=
  match ts with
  | [] => []
  | t :: ts =>
      let fs := xsd.findRestrictingFacets t in
      let group := if enumFound then [] else levelEnums t in
      (XsdLibrary.Facet <$> selectAfter recordedPlain before fs) ++
      (if bool_decide (length group ≠ 0%nat)
       then [XsdLibrary.Enums group] else []) ++
      levelEntries (before ++ fs)
        (enumFound || bool_decide (length group ≠ 0%nat)) ts
  end.

End levels.

(** ** Further sample schemas and instance nodes *)

Module MoreExamples.
Import Sample Examples.

(** A simple type derived by list: it has no [restriction] child. *)
Definition typeList : Element :=
  xsElem "simpleType" [attr "name" "Sizes"]
    [xsElem "list" [attr "itemType" "xs:decimal"] []].

(** [ghost] inside [mid] inside a [root] that carries [xsi:type]: only the
    last step of the descent finds nothing. *)
Definition ghostUnderMid : XmlNode := mkXmlNode ghostElem [midElem; rootTyped].

(** [item] inside [mid] inside a typed [root] that lies inside [ghost]. *)
Definition itemUnderNestedRoot : XmlNode :=
  mkXmlNode itemElem [midElem; rootTyped; ghostElem].

(** [item] inside [mid] inside a [root] without [xsi:type]. *)
Definition itemUnderPlainRoot : XmlNode :=
  mkXmlNode itemElem [midElem; rootPlain].

(** A document of another namespace declaring a root element. *)
Definition otherDocument : Document :=
  mkDocument
    (xsElem "schema" [attr "targetNamespace" "urn:other"]
       [xsElem "element" [attr "name" "other"; attr "type" "xs:string"] []]).

(** [Code] restricts [Word] restricts [xs:string]; the levels repeat kinds,
    some fixed, and both declare enumerations. *)
Definition codeLength : Element := facet "maxLength" "4".
Definition codeEnumA : Element := facet "enumeration" "A".
Definition codeEnumB : Element := facet "enumeration" "B".
Definition wordLength : Element := facet "maxLength" "9".
Definition wordLengthFixed : Element := fixedFacet "maxLength" "10".
Definition wordPattern : Element := facet "pattern" "[A-Z]+".
Definition wordEnum : Element := facet "enumeration" "W".
Definition typeCode : Element :=
  simpleType "Code" "Word" [codeEnumA; codeLength; codeEnumB].
Definition typeWord : Element :=
  simpleType "Word" "xs:string"
    [wordLength; wordEnum; wordLengthFixed; wordPattern].
Definition codeLibrary : gmap string (list Document) :=
  XsdLibrary.init "" (Some [schema [typeCode; typeWord]]).

(** An [xsd.findTypeByName] that answers with arrays, on the sample
    documents. *)
Definition findTypeByNameAll (d : Document) (name : string) : list Element :=
  filter (fun e => (isXs "simpleType" e || isXs "complexType" e) &&
                   hasName name e = true)
         (children (documentElement d)).

(** Two complex types that extend each other. *)
Definition extending (name base : string) : Element :=
  xsElem "complexType" [attr "name" name]
    [xsElem "complexContent" [] [xsElem "extension" [attr "base" base] []]].
Definition typeA_extending : Element := extending "A" "B".
Definition typeB_extending : Element := extending "B" "A".
Definition cyclicExtensionLibrary : gmap string (list Document) :=
  XsdLibrary.init "" (Some [schema [typeA_extending; typeB_extending]]).


End MoreExamples.

(** ** The buckets of a catalogue *)

Section store_facts.
Context `{X : xsd.Api}.
Implicit Types (this : gmap string (list Document)) (regs : list Registration).

Lemma addItem_lookup this def name k :
  XsdLibrary.addItem this def name !! k =
    if decide (registrationKey (def, name) = k)
    then Some (default [] (this !! k) ++ [def])
    else this !! k.
Proof.
  unfold XsdLibrary.addItem, registrationKey, Library.exists_, Library.getItem.
  simpl. set (key := propertyKey _).
  rewrite lookup_insert. case_decide as Hk; [subst k|done].
  f_equal. f_equal. case_bool_decide as Hs; [done|].
  destruct (this !! key) eqn:E; [|done]. exfalso. apply Hs. eauto.
Qed.

Lemma registeredUnder_cons key r regs :
  registeredUnder key (r :: regs) =
    (if decide (registrationKey r = key) then [r.1] else []) ++
    registeredUnder key regs.
Proof.
  unfold registeredUnder. rewrite filter_cons. by case_decide.
Qed.

Lemma registeredUnder_app key regs1 regs2 :
  registeredUnder key (regs1 ++ regs2) =
    registeredUnder key regs1 ++ registeredUnder key regs2.
Proof. unfold registeredUnder. by rewrite filter_app, fmap_app. Qed.

Lemma addItems_bucket this regs k :
  default [] (addItems this regs !! k) =
    default [] (this !! k) ++ registeredUnder k regs.
Proof.
  revert this. induction regs as [|[def name] regs IH]; intros this.
  - simpl. by rewrite app_nil_r.
  - unfold addItems in *. simpl. rewrite IH, addItem_lookup, registeredUnder_cons.
    case_decide; simpl; [by rewrite <- app_assoc|done].
Qed.

Lemma addItems_absent this regs k :
  this !! k = None → registeredUnder k regs = [] →
  addItems this regs !! k = None.
Proof.
  revert this. induction regs as [|[def name] regs IH]; intros this Hk Hr; [done|].
  rewrite registeredUnder_cons in Hr.
  case_decide as Hd; [done|]. simpl in Hr.
  unfold addItems in *. simpl. apply IH; [|done].
  rewrite addItem_lookup. by case_decide.
Qed.

Lemma registeredUnder_none key regs :
  (∀ r, r ∈ regs → registrationKey r ≠ key) → registeredUnder key regs = [].
Proof.
  induction regs as [|r regs IH]; intros Hall; [done|].
  rewrite registeredUnder_cons, decide_False by (apply Hall; left).
  apply IH. intros r' Hr'. apply Hall. by right.
Qed.

Lemma addItems_app this regs1 regs2 :
  addItems this (regs1 ++ regs2) = addItems (addItems this regs1) regs2.
Proof. apply fold_left_app. Qed.

Lemma init_addItems basetypesXsd defs :
  XsdLibrary.init basetypesXsd defs =
    addItems ∅ (initialRegistrations basetypesXsd defs).
Proof.
  unfold XsdLibrary.init, Library.init, addItems, initialRegistrations.
  simpl. generalize (XsdLibrary.addItem ∅ (xsd.parseToDom basetypesXsd) None).
  induction (default [] defs) as [|d ds IH]; intros s; [done|]. simpl. apply IH.
Qed.
End store_facts.

(** ** Registration and lookup by name *)

Section lookup_facts.

Context `{X : xsd.Api}.
Implicit Types (this : gmap string (list Document)) (regs : list Registration).

Lemma findTypeByName_loop_app xsds1 xsds2 name :
  XsdLibrary.findTypeByName_loop (xsds1 ++ xsds2) name =
    match XsdLibrary.findTypeByName_loop xsds1 name with
    | Some t => Some t
    | None => XsdLibrary.findTypeByName_loop xsds2 name
    end.
Proof.
  induction xsds1 as [|d xsds1 IH]; simpl; [done|].
  by destruct (xsd.findTypeByName d name).
Qed.

Lemma findTypeByName_loop_none xsds name :
  (∀ d, d ∈ xsds → xsd.findTypeByName d name = None) →
  XsdLibrary.findTypeByName_loop xsds name = None.
Proof.
  induction xsds as [|d xsds IH]; intros Hall; simpl; [done|].
  rewrite (Hall d) by left. apply IH. intros d' Hd'. apply Hall. by right.
Qed.

Lemma lookup_unregistered this ns name :
  this !! ns = None →
  XsdLibrary.findElement this ns name = None ∧
  XsdLibrary.findTypeByName this ns name = None.
Proof.
  intros Hns. unfold XsdLibrary.findElement, XsdLibrary.findTypeByName,
    Library.getItem. simpl. by rewrite Hns.
Qed.

End lookup_facts.

Section C7.
Context `{X : xsd.Api}.

(** C7: [addItem] appends the document to the bucket of its namespace, a
    missing bucket counting as empty, and does so again when the same
    document is added again; [findTypeByName] answers with the first match in
    registration order, so that of two documents registered under one
    namespace and both declaring [T] the one registered first provides the
    definition. *)
Theorem C7_registration_order_is_search_order
    (this : gmap string (list Document)) (d1 d2 : Document)
    (n1 n2 : option string) (ns T : string) (t1 : Element) :
  registrationKey (d1, n1) = ns →
  registrationKey (d2, n2) = ns →
  xsd.findTypeByName d1 T = Some t1 →
  (∀ d, d ∈ default [] (this !! ns) → xsd.findTypeByName d T = None) →
  XsdLibrary.addItem this d1 n1 !! ns = Some (default [] (this !! ns) ++ [d1]) ∧
  XsdLibrary.addItem (XsdLibrary.addItem this d1 n1) d1 n1 !! ns =
    Some (default [] (this !! ns) ++ [d1; d1]) ∧
  XsdLibrary.findTypeByName
    (XsdLibrary.addItem (XsdLibrary.addItem this d1 n1) d2 n2) ns T = Some t1 ∧
  XsdLibrary.findTypeByName
    (XsdLibrary.addItem (XsdLibrary.addItem this d1 n1) d1 n1) ns T = Some t1.
Proof.
  intros H1 H2 Ht1 Hold.
  assert (Hfirst : ∀ d,
    XsdLibrary.findTypeByName_loop ((default [] (this !! ns) ++ [d1]) ++ [d]) T
      = Some t1).
  { intros d. rewrite !findTypeByName_loop_app.
    rewrite (findTypeByName_loop_none _ _ Hold). simpl. by rewrite Ht1. }
  repeat split.
  - rewrite addItem_lookup. by rewrite decide_True.
  - rewrite !addItem_lookup, !decide_True by done. simpl.
    by rewrite <- app_assoc.
  - unfold XsdLibrary.findTypeByName, Library.getItem. simpl.
    rewrite !addItem_lookup, !decide_True by done. simpl. apply Hfirst.
  - unfold XsdLibrary.findTypeByName, Library.getItem. simpl.
    rewrite !addItem_lookup, !decide_True by done. simpl. apply Hfirst.
Qed.
End C7.

Section catalogue_states.
Context `{X : xsd.Api}.

(** C4 (amended): neither [addItem] nor construction rejects a document
    without a target namespace.  Added without a usable name, such a document
    is appended to the bucket of the key ["null"]; given among the initial
    documents, it is found in that bucket of the constructed catalogue. *)
Theorem C4_document_without_namespace_is_registered
    (basetypesXsd : string) (this : gmap string (list Document))
    (defs : list Document) (def : Document) (name : option string) :
  getAttributeNS (documentElement def) None "targetNamespace" = None →
  truthy name = false →
  def ∈ defs →
  XsdLibrary.addItem this def name !! "null" =
    Some (default [] (this !! "null") ++ [def]) ∧
  ∃ bucket, XsdLibrary.init basetypesXsd (Some defs) !! "null" = Some bucket ∧
            def ∈ bucket.
Proof.
  intros Hns Hname Hin.
  assert (Hkey : ∀ n, truthy n = false → registrationKey (def, n) = "null").
  { intros n Hn. unfold registrationKey, js_or. simpl. by rewrite Hn, Hns. }
  split.
  - rewrite addItem_lookup. by rewrite decide_True by auto.
  - rewrite init_addItems.
    pose proof (addItems_bucket ∅ (initialRegistrations basetypesXsd (Some defs))
                  "null") as Hb.
    rewrite lookup_empty in Hb. simpl in Hb.
    assert (Hdef : def ∈ registeredUnder "null"
                     (initialRegistrations basetypesXsd (Some defs))).
    { unfold registeredUnder, initialRegistrations. simpl.
      apply (list_elem_of_fmap_2 fst _ (def, None)).
      apply list_elem_of_filter. split; [by apply Hkey|].
      right. by apply (list_elem_of_fmap_2 (λ d, (d, None))). }
    rewrite <- Hb in Hdef.
    destruct (addItems _ _ !! "null") as [bucket|]; simpl in Hdef.
    + eauto.
    + by apply elem_of_nil in Hdef.
Qed.

(** C9: in the catalogue that construction produces, and after any further
    calls of [addItem], the built-in document heads the bucket of the key it
    was registered under. *)
Theorem C9_basetypes_document_stays_first
    (basetypesXsd : string) (defs : option (list Document))
    (regs : list Registration) :
  ∃ rest,
    addItems (XsdLibrary.init basetypesXsd defs) regs
      !! registrationKey (xsd.parseToDom basetypesXsd, None) =
    Some (xsd.parseToDom basetypesXsd :: rest).
Proof.
  set (base := xsd.parseToDom basetypesXsd).
  set (key := registrationKey (base, None)).
  assert (Hinit : ∃ rest, XsdLibrary.init basetypesXsd defs !! key
                          = Some (base :: rest)).
  { rewrite init_addItems. unfold initialRegistrations. simpl. fold base.
    unfold addItems. simpl.
    pose proof (addItems_bucket (XsdLibrary.addItem ∅ base None)
                  ((λ d, (d, None)) <$> default [] defs) key) as Hb.
    rewrite addItem_lookup, decide_True in Hb by done.
    rewrite lookup_empty in Hb. simpl in Hb. unfold addItems in Hb.
    destruct (fold_left _ _ _ !! key) as [bucket|]; simpl in Hb.
    - subst bucket. eauto.
    - done. }
  destruct Hinit as [rest0 Hinit].
  pose proof (addItems_bucket (XsdLibrary.init basetypesXsd defs) regs key) as Hb.
  rewrite Hinit in Hb. simpl in Hb.
  destruct (addItems _ regs !! key) as [bucket|]; simpl in Hb.
  - subst bucket. eauto.
  - done.
Qed.

(** C10: when neither construction nor any later [addItem] has registered a
    document under a namespace, [findElement] and [findTypeByName] return
    [null] for every name in that namespace. *)
Theorem C10_unregistered_namespace_is_not_found
    (basetypesXsd : string) (defs : option (list Document))
    (regs : list Registration) (ns name : string) :
  (∀ r, r ∈ initialRegistrations basetypesXsd defs ++ regs →
        registrationKey r ≠ ns) →
  XsdLibrary.findElement
    (addItems (XsdLibrary.init basetypesXsd defs) regs) ns name = None ∧
  XsdLibrary.findTypeByName
    (addItems (XsdLibrary.init basetypesXsd defs) regs) ns name = None.
Proof.
  intros Hnever. apply lookup_unregistered.
  rewrite init_addItems, <- addItems_app.
  apply addItems_absent; [done|]. by apply registeredUnder_none.
Qed.

End catalogue_states.

(** ** Walks along derivation chains *)

Section chain_walks.

Context `{X : xsd.Api}.
Implicit Types (this : gmap string (list Document)) (t : Element)
  (ts : list Element).

Lemma Chain_length step t ts : Chain step t ts → (0 < length ts)%nat.
Proof. destruct 1; simpl; lia. Qed.

Lemma Chain_functional step t ts1 ts2 :
  Chain step t ts1 → Chain step t ts2 → ts1 = ts2.
Proof.
  intros H1. revert ts2. induction H1 as [t Ht|t base ts Ht _ IH];
    intros ts2 H2; destruct H2 as [t Ht'|t base' ts' Ht' H2]; try congruence.
  f_equal. apply IH. congruence.
Qed.

Lemma findBaseTypeFor_loop_chain this t ts fuel :
  Chain (XsdLibrary.findRestrictedType this) t ts →
  (length ts ≤ fuel)%nat →
  XsdLibrary.findBaseTypeFor_loop fuel this t =
    Some (getAttribute (default t (last ts)) "name").
Proof.
  intros Hc. revert fuel. induction Hc as [t Ht|t base ts Ht Hc IH];
    intros fuel Hfuel; simpl in Hfuel.
  - destruct fuel as [|fuel]; [lia|]. simpl. by rewrite Ht.
  - destruct fuel as [|fuel]; [lia|]. simpl. rewrite Ht.
    rewrite IH by lia. do 2 f_equal.
    destruct Hc as [b Hb|b b' ts' Hb Hc']; [done|].
    destruct (last (b :: ts')) eqn:Hlast; [by rewrite last_cons, Hlast|].
    by apply last_None in Hlast.
Qed.

Lemma findBaseTypeFor_loop_returns this t fuel r :
  XsdLibrary.findBaseTypeFor_loop fuel this t = Some r →
  ∃ ts, Chain (XsdLibrary.findRestrictedType this) t ts.
Proof.
  revert t. induction fuel as [|fuel IH]; intros t Hr; simpl in Hr; [done|].
  destruct (XsdLibrary.findRestrictedType this t) as [base|] eqn:Ht.
  - destruct (IH _ Hr) as [ts Hts]. exists (t :: ts). by eapply Chain_next.
  - exists [t]. by apply Chain_end.
Qed.

Lemma collectFacets_loop_chain this t ts fuel st :
  Chain (XsdLibrary.findRestrictedType this) t ts →
  (length ts ≤ fuel)%nat →
  XsdLibrary.collectFacets_loop fuel this st (Some t) =
    Some (XsdLibrary.facets (fold_left XsdLibrary.collectLevel ts st)).
Proof.
  intros Hc. revert fuel st. induction Hc as [t Ht|t base ts Ht Hc IH];
    intros fuel st Hfuel; simpl in Hfuel.
  - destruct fuel as [|fuel]; [lia|]. simpl. rewrite Ht. by destruct fuel.
  - destruct fuel as [|fuel]; [lia|]. simpl. rewrite Ht. apply IH. lia.
Qed.

Lemma collectFacets_loop_returns this t fuel st r :
  XsdLibrary.collectFacets_loop fuel this st (Some t) = Some r →
  ∃ ts, Chain (XsdLibrary.findRestrictedType this) t ts.
Proof.
  revert t st. induction fuel as [|fuel IH]; intros t st Hr; simpl in Hr;
    [done|].
  destruct (XsdLibrary.findRestrictedType this t) as [base|] eqn:Ht.
  - destruct (IH _ _ Hr) as [ts Hts]. exists (t :: ts). by eapply Chain_next.
  - exists [t]. by apply Chain_end.
Qed.

Lemma complexType_loop_chain declared this t ts fuel elems :
  Chain (XsdLibrary.findExtendedType this) t ts →
  (length ts ≤ fuel)%nat →
  XsdLibrary.complexType_loop declared fuel this elems (Some t) =
    Some (elems ++ ts ≫= declared).
Proof.
  intros Hc. revert fuel elems. induction Hc as [t Ht|t base ts Ht Hc IH];
    intros fuel elems Hfuel; simpl in Hfuel.
  - destruct fuel as [|fuel]; [lia|]. simpl. rewrite Ht.
    rewrite app_nil_r. by destruct fuel.
  - destruct fuel as [|fuel]; [lia|]. simpl. rewrite Ht.
    rewrite IH by lia. by rewrite <- app_assoc.
Qed.

(** C1 (amended): [findBaseTypeFor] and [collectFacets] walk the restriction
    chain without a bound: each of them returns exactly when the chain that
    starts at the node ends after finitely many types. *)
Theorem C1_walks_return_exactly_on_finite_chains this t :
  ((∃ fuel r, XsdLibrary.findBaseTypeFor fuel this t = Some r) ↔
   (∃ ts, Chain (XsdLibrary.findRestrictedType this) t ts)) ∧
  ((∃ fuel r, XsdLibrary.collectFacets fuel this t = Some r) ↔
   (∃ ts, Chain (XsdLibrary.findRestrictedType this) t ts)).
Proof.
  split; split.
  - intros (fuel & r & Hr). by eapply findBaseTypeFor_loop_returns.
  - intros [ts Hts]. eexists (length ts), _.
    by apply findBaseTypeFor_loop_chain.
  - intros (fuel & r & Hr). by eapply collectFacets_loop_returns.
  - intros [ts Hts]. eexists (length ts), _.
    by apply collectFacets_loop_chain.
Qed.

(** C8 (amended): along a chain of extensions that ends,
    [getComplexTypeElements] returns the elements each type of the chain
    declares, and [getComplexTypeAsserts] the assertions, those of the given
    type first and then those of each ancestor in chain order, all of them
    kept. *)
Theorem C8_complexType_members_concatenate_along_the_chain
    this t ts fuel :
  Chain (XsdLibrary.findExtendedType this) t ts →
  (length ts ≤ fuel)%nat →
  XsdLibrary.getComplexTypeElements fuel this t =
    Some (ts ≫= xsd.getComplexTypeElements) ∧
  XsdLibrary.getComplexTypeAsserts fuel this t =
    Some (ts ≫= xsd.getComplexTypeAsserts).
Proof.
  intros Hc Hfuel. unfold XsdLibrary.getComplexTypeElements,
    XsdLibrary.getComplexTypeAsserts.
  by rewrite !(complexType_loop_chain _ _ _ ts).
Qed.

End chain_walks.

(** ** Facet collection *)

Section facet_collection.

Context `{X : xsd.Api}.
Implicit Types (this : gmap string (list Document)) (t f : Element)
  (ts fs seen : list Element) (st : XsdLibrary.FacetState).

Lemma processFacet_enum st f :
  isEnumeration f = true →
  XsdLibrary.processFacet st f =
    if bool_decide ("enumeration" ∈ XsdLibrary.foundFacetTypes st) then st
    else XsdLibrary.mkFacetState (XsdLibrary.facets st)
           (XsdLibrary.enums st ++ [f]) (XsdLibrary.foundFacetTypes st).
Proof.
  unfold isEnumeration, XsdLibrary.processFacet. intros Hf.
  apply bool_decide_eq_true in Hf as Hname. rewrite Hf, Hname. simpl.
  by destruct (bool_decide ("enumeration" ∈ _)).
Qed.

Lemma processFacet_plain st f :
  isEnumeration f = false →
  XsdLibrary.processFacet st f =
    if negb (bool_decide (localName f ∈ XsdLibrary.foundFacetTypes st))
       || isFixedFacet f
    then XsdLibrary.mkFacetState (XsdLibrary.facets st ++ [XsdLibrary.Facet f])
           (XsdLibrary.enums st) (XsdLibrary.foundFacetTypes st ++ [localName f])
    else st.
Proof.
  unfold isFixedFacet, isEnumeration, XsdLibrary.processFacet. intros Hf.
  rewrite Hf. simpl. by destruct (_ || _).
Qed.

Lemma selectAfter_app {A} (keep : list A → A → bool) (before l1 l2 : list A) :
  selectAfter keep before (l1 ++ l2) =
    selectAfter keep before l1 ++ selectAfter keep (before ++ l1) l2.
Proof.
  revert before. induction l1 as [|x l1 IH]; intros before; simpl.
  - by rewrite app_nil_r.
  - rewrite IH, <- !app_assoc. done.
Qed.

Lemma plainFacets_app (r1 r2 : list XsdLibrary.FacetEntry) :
  plainFacets (r1 ++ r2) = plainFacets r1 ++ plainFacets r2.
Proof. apply omap_app. Qed.

Lemma enumGroups_app (r1 r2 : list XsdLibrary.FacetEntry) :
  enumGroups (r1 ++ r2) = enumGroups r1 ++ enumGroups r2.
Proof. apply omap_app. Qed.

(** What the walk maintains about the facets pushed singly: they are the
    recorded ones among the facets seen, and a kind other than
    [enumeration] is marked found exactly when a facet of it was seen. *)
Lemma processFacet_recorded seen st f :
  plainFacets (XsdLibrary.facets st) = selectAfter recordedPlain [] seen →
  (∀ n, n ≠ "enumeration" →
        n ∈ XsdLibrary.foundFacetTypes st ↔ n ∈ localName <$> seen) →
  plainFacets (XsdLibrary.facets (XsdLibrary.processFacet st f)) =
    selectAfter recordedPlain [] (seen ++ [f]) ∧
  (∀ n, n ≠ "enumeration" →
        n ∈ XsdLibrary.foundFacetTypes (XsdLibrary.processFacet st f) ↔
        n ∈ localName <$> (seen ++ [f])).
Proof.
  intros Hplain Hfound.
  rewrite selectAfter_app, fmap_app. simpl. rewrite app_nil_r.
  unfold recordedPlain at 2.
  destruct (isEnumeration f) eqn:Hf.
  - rewrite processFacet_enum by done. simpl. rewrite app_nil_r.
    apply bool_decide_eq_true in Hf.
    assert (Hsame : ∀ n, n ≠ "enumeration" →
              ((n ∈ localName <$> seen) ↔ n ∈ (localName <$> seen) ++ [localName f])).
    { intros n Hn. rewrite elem_of_app, list_elem_of_singleton.
      split; [auto|]. intros [?|?]; [done|congruence]. }
    case_bool_decide; simpl; (split; [done|]); intros n Hn;
      rewrite <- Hsame by done; by apply Hfound.
  - rewrite processFacet_plain by done.
    apply bool_decide_eq_false in Hf.
    assert (Hkind : bool_decide (localName f ∈ XsdLibrary.foundFacetTypes st)
                    = bool_decide (localName f ∈ localName <$> seen)).
    { apply bool_decide_ext. by apply Hfound. }
    rewrite Hkind. simpl.
    replace (isFixedFacet f || bool_decide (localName f ∉ localName <$> seen))
      with (negb (bool_decide (localName f ∈ localName <$> seen))
            || isFixedFacet f).
    2:{ rewrite orb_comm. f_equal. by rewrite bool_decide_not. }
    destruct (negb _ || _) eqn:Hkeep; simpl.
    + split; [by rewrite plainFacets_app, Hplain|].
      intros n Hn. rewrite !elem_of_app, !list_elem_of_singleton.
      by rewrite Hfound.
    + rewrite app_nil_r. split; [done|].
      intros n Hn. rewrite elem_of_app, list_elem_of_singleton.
      rewrite Hfound by done. split; [auto|]. intros [?| ->]; [done|].
      apply orb_false_iff in Hkeep as [Hk _].
      apply negb_false_iff, bool_decide_eq_true in Hk. done.
Qed.

Lemma level_recorded seen st fs :
  plainFacets (XsdLibrary.facets st) = selectAfter recordedPlain [] seen →
  (∀ n, n ≠ "enumeration" →
        n ∈ XsdLibrary.foundFacetTypes st ↔ n ∈ localName <$> seen) →
  plainFacets (XsdLibrary.facets (fold_left XsdLibrary.processFacet fs st)) =
    selectAfter recordedPlain [] (seen ++ fs) ∧
  (∀ n, n ≠ "enumeration" →
        n ∈ XsdLibrary.foundFacetTypes (fold_left XsdLibrary.processFacet fs st)
        ↔ n ∈ localName <$> (seen ++ fs)).
Proof.
  revert seen st. induction fs as [|f fs IH]; intros seen st Hplain Hfound.
  - by rewrite app_nil_r.
  - simpl. replace (seen ++ f :: fs) with ((seen ++ [f]) ++ fs)
      by by rewrite <- app_assoc.
    destruct (processFacet_recorded seen st f Hplain Hfound). by apply IH.
Qed.

Lemma collectLevel_recorded seen st t :
  plainFacets (XsdLibrary.facets st) = selectAfter recordedPlain [] seen →
  (∀ n, n ≠ "enumeration" →
        n ∈ XsdLibrary.foundFacetTypes st ↔ n ∈ localName <$> seen) →
  plainFacets (XsdLibrary.facets (XsdLibrary.collectLevel st t)) =
    selectAfter recordedPlain [] (seen ++ xsd.findRestrictingFacets t) ∧
  (∀ n, n ≠ "enumeration" →
        n ∈ XsdLibrary.foundFacetTypes (XsdLibrary.collectLevel st t) ↔
        n ∈ localName <$> (seen ++ xsd.findRestrictingFacets t)).
Proof.
  intros Hplain Hfound. unfold XsdLibrary.collectLevel.
  set (st0 := XsdLibrary.mkFacetState _ [] _).
  destruct (level_recorded seen st0 (xsd.findRestrictingFacets t))
    as [Hplain' Hfound']; [done..|].
  destruct (bool_decide (length _ ≠ 0%nat)); [|done]. simpl. split.
  - rewrite plainFacets_app. simpl. by rewrite app_nil_r.
  - intros n Hn. rewrite elem_of_app, list_elem_of_singleton.
    rewrite Hfound' by done. split; [by intros [?|?]|by left].
Qed.

Lemma levels_recorded seen st ts :
  plainFacets (XsdLibrary.facets st) = selectAfter recordedPlain [] seen →
  (∀ n, n ≠ "enumeration" →
        n ∈ XsdLibrary.foundFacetTypes st ↔ n ∈ localName <$> seen) →
  plainFacets (XsdLibrary.facets (fold_left XsdLibrary.collectLevel ts st)) =
    selectAfter recordedPlain [] (seen ++ walkFacets ts).
Proof.
  revert seen st. induction ts as [|t ts IH]; intros seen st Hplain Hfound.
  - simpl. by rewrite app_nil_r.
  - change (walkFacets (t :: ts))
      with (xsd.findRestrictingFacets t ++ walkFacets ts).
    simpl. rewrite app_assoc.
    destruct (collectLevel_recorded seen st t Hplain Hfound). by apply IH.
Qed.

(** Within one level the enumeration facets are gathered unless the kind
    [enumeration] is already marked found; the groups pushed so far and
    that mark do not change. *)
Lemma level_enums st fs :
  let st' := fold_left XsdLibrary.processFacet fs st in
  XsdLibrary.enums st' =
    XsdLibrary.enums st ++
    (if bool_decide ("enumeration" ∈ XsdLibrary.foundFacetTypes st) then []
     else filter (λ f, isEnumeration f = true) fs) ∧
  enumGroups (XsdLibrary.facets st') = enumGroups (XsdLibrary.facets st) ∧
  ("enumeration" ∈ XsdLibrary.foundFacetTypes st' ↔
   "enumeration" ∈ XsdLibrary.foundFacetTypes st).
Proof.
  revert st. induction fs as [|f fs IH]; intros st; simpl.
  - split; [|done]. by destruct (bool_decide _); rewrite app_nil_r.
  - destruct (IH (XsdLibrary.processFacet st f)) as (He & Hg & Hm).
    rewrite He, Hg, Hm. clear He Hg Hm IH. rewrite filter_cons.
    destruct (isEnumeration f) eqn:Hf.
    + rewrite processFacet_enum by done. rewrite decide_True by done.
      case_bool_decide as Hfound; [by rewrite bool_decide_true|].
      simpl. rewrite bool_decide_false by done.
      by rewrite <- app_assoc.
    + rewrite processFacet_plain by done.
      rewrite decide_False by (by intros ?).
      destruct (negb _ || _); [|done]. simpl.
      apply bool_decide_eq_false in Hf.
      assert (Hm : "enumeration" ∈ XsdLibrary.foundFacetTypes st ++ [localName f]
                   ↔ "enumeration" ∈ XsdLibrary.foundFacetTypes st).
      { rewrite elem_of_app, list_elem_of_singleton.
        split; [|auto]. intros [?|?]; [done|congruence]. }
      split; [by rewrite (bool_decide_ext _ _ Hm)|].
      split; [|done]. rewrite enumGroups_app. simpl. by rewrite app_nil_r.
Qed.

Lemma collectLevel_enums st t :
  let found := bool_decide ("enumeration" ∈ XsdLibrary.foundFacetTypes st) in
  let group := if found then [] else levelEnums t in
  enumGroups (XsdLibrary.facets (XsdLibrary.collectLevel st t)) =
    enumGroups (XsdLibrary.facets st) ++
    (if bool_decide (length group ≠ 0%nat) then [group] else []) ∧
  ("enumeration" ∈ XsdLibrary.foundFacetTypes (XsdLibrary.collectLevel st t) ↔
   "enumeration" ∈ XsdLibrary.foundFacetTypes st ∨ length group ≠ 0%nat).
Proof.
  intros found group. unfold XsdLibrary.collectLevel.
  set (st0 := XsdLibrary.mkFacetState _ [] _).
  destruct (level_enums st0 (xsd.findRestrictingFacets t)) as (He & Hg & Hm).
  simpl in He, Hg, Hm. fold found in He. fold (levelEnums t) in He.
  fold group in He. rewrite He.
  case_bool_decide as Hlen; simpl.
  - rewrite enumGroups_app, Hg. split; [done|].
    rewrite elem_of_app, list_elem_of_singleton, Hm. tauto.
  - rewrite Hg, Hm, app_nil_r. split; [done|]. tauto.
Qed.

Lemma levels_enums st ts :
  enumGroups (XsdLibrary.facets (fold_left XsdLibrary.collectLevel ts st)) =
    enumGroups (XsdLibrary.facets st) ++
    (if bool_decide ("enumeration" ∈ XsdLibrary.foundFacetTypes st) then []
     else take 1 (filter (λ g, length g ≠ 0%nat) (levelEnums <$> ts))).
Proof.
  revert st. induction ts as [|t ts IH]; intros st.
  - simpl. destruct (bool_decide ("enumeration" ∈ _)); by rewrite app_nil_r.
  - simpl. rewrite IH. clear IH.
    destruct (collectLevel_enums st t) as [Hg Hm]. simpl in Hg, Hm.
    rewrite Hg, (bool_decide_ext _ _ Hm). clear Hg Hm.
    rewrite filter_cons.
    destruct (decide ("enumeration" ∈ XsdLibrary.foundFacetTypes st))
      as [Hin|Hnin].
    + rewrite !(bool_decide_true _ Hin). simpl.
      rewrite bool_decide_true by by left. by rewrite !app_nil_r.
    + rewrite !(bool_decide_false _ Hnin).
      destruct (decide (length (levelEnums t) ≠ 0%nat)) as [Hlen|Hlen].
      * rewrite bool_decide_true by done.
        rewrite bool_decide_true by by right.
        simpl. by rewrite take_0, app_nil_r.
      * rewrite bool_decide_false by done.
        rewrite bool_decide_false by tauto. by rewrite app_nil_r.
Qed.

(** C2 (amended): along a restriction chain the result of [collectFacets]
    holds at most one group of enumeration facets: all the enumeration facets,
    in document order, of the most-derived level that declares any.  Levels
    without enumeration facets add no group, and the enumeration facets of
    farther levels are left out. *)
Theorem C2_enumerations_of_the_nearest_level_only this t ts fuel :
  Chain (XsdLibrary.findRestrictedType this) t ts →
  (length ts ≤ fuel)%nat →
  ∃ r, XsdLibrary.collectFacets fuel this t = Some r ∧
       enumGroups r =
         take 1 (filter (λ g, length g ≠ 0%nat) (levelEnums <$> ts)).
Proof.
  intros Hc Hfuel. eexists. split.
  - by apply collectFacets_loop_chain.
  - by rewrite levels_enums.
Qed.

(** C5 (amended): along a restriction chain the facets that [collectFacets]
    pushes singly are, in walk order, the facets other than enumerations that
    are fixed (an assertion, or [fixed="true"]) or that no facet met earlier
    in the walk shares its kind with.  A fixed facet is recorded wherever it
    stands; a facet that is not fixed is recorded only as the first of its
    kind. *)
Theorem C5_fixed_or_first_of_kind_is_recorded this t ts fuel :
  Chain (XsdLibrary.findRestrictedType this) t ts →
  (length ts ≤ fuel)%nat →
  ∃ r, XsdLibrary.collectFacets fuel this t = Some r ∧
       plainFacets r = selectAfter recordedPlain [] (walkFacets ts).
Proof.
  intros Hc Hfuel. eexists. split.
  - by apply collectFacets_loop_chain.
  - by apply (levels_recorded []).
Qed.

End facet_collection.

(** ** From an instance node to its definition *)

Section instance_nodes.

Context `{X : xsd.Api}.
Implicit Types (this : gmap string (list Document)) (node : XmlNode)
  (ps inner ancestors : list Element) (names : list string).

#[local] Arguments XsdLibrary.findXsdSubNode : simpl never.

Lemma firstFiltered_collectParent ancestors acc :
  (xsd.firstFiltered ancestors XsdLibrary.collectParent acc).1 =
    acc ++ collectedParents ancestors.
Proof.
  revert acc. induction ancestors as [|a rest IH]; intros acc; simpl.
  - by rewrite app_nil_r.
  - fold (hasXsiType a). destruct (hasXsiType a); simpl; [done|].
    by rewrite IH, <- app_assoc.
Qed.

Lemma collectedParents_untyped ancestors inner outer :
  collectedParents ancestors = inner ++ [outer] →
  Forall (λ a, hasXsiType a = false) inner.
Proof.
  revert inner. induction ancestors as [|a rest IH]; intros inner Hc;
    simpl in Hc.
  - by destruct inner.
  - destruct (hasXsiType a) eqn:Ha.
    + destruct inner as [|b inner]; [done|].
      simplify_eq/=. by destruct inner.
    + destruct inner as [|b inner]; [done|].
      simplify_eq/=. constructor; [done|]. by apply IH.
Qed.

Lemma untyped_not_resolved this a :
  hasXsiType a = false →
  XsdLibrary.findTypeDefinitionFromNodeAttr this a "type" (Some xsd.xsi) = None.
Proof.
  unfold hasXsiType, XsdLibrary.findTypeDefinitionFromNodeAttr. intros Ha.
  apply bool_decide_eq_false in Ha.
  destruct (xsd.getTypeFromNodeAttr a "type" (Some xsd.xsi)); [|done].
  exfalso. apply Ha. eauto.
Qed.

Lemma eachParent_untyped this ps :
  Forall (λ a, hasXsiType a = false) ps →
  XsdLibrary.eachParent this ps None = Return None.
Proof.
  induction 1 as [|p ps Hp _ IH]; simpl; [done|].
  by rewrite untyped_not_resolved.
Qed.

Lemma eachParent_descend this ps xsdNode name :
  Forall (λ a, hasXsiType a = false) ps →
  XsdLibrary.eachParent this ps xsdNode ≫=
    (λ found, XsdLibrary.findXsdSubNode this found name) =
  descend this xsdNode ((localName <$> ps) ++ [name]).
Proof.
  intros Hps. revert xsdNode.
  induction Hps as [|p ps Hp Hps IH]; intros xsdNode.
  - simpl. by destruct (XsdLibrary.findXsdSubNode this xsdNode name).
  - destruct xsdNode as [e|].
    + simpl. destruct (XsdLibrary.findXsdSubNode this (Some e) (localName p));
        simpl; [apply IH|done].
    + rewrite (eachParent_untyped this (p :: ps)) by by constructor. done.
Qed.

Lemma descend_app this xsdNode names1 names2 :
  descend this xsdNode (names1 ++ names2) =
    descend this xsdNode names1 ≫= (λ found, descend this found names2).
Proof.
  revert xsdNode. induction names1 as [|n names1 IH]; intros xsdNode; simpl.
  - done.
  - destruct (XsdLibrary.findXsdSubNode this xsdNode n); simpl; [apply IH|done].
Qed.

(** The whole of [findElementForXmlNode] when at least one ancestor was
    collected: what the [xsi:type] of the outermost one resolves to, then
    the descents. *)
Lemma findElementForXmlNode_descend this node outer inner :
  reverse (collectedParents (parentChain node)) = outer :: inner →
  XsdLibrary.findElementForXmlNode this node =
    descend this
      (XsdLibrary.findTypeDefinitionFromNodeAttr this outer "type"
         (Some xsd.xsi))
      ((localName <$> inner) ++ [localName (element node)]).
Proof.
  intros Hrev. unfold XsdLibrary.findElementForXmlNode,
    xsd.getFirstFilteredAncestor.
  rewrite firstFiltered_collectParent. simpl. rewrite Hrev. simpl.
  apply eachParent_descend.
  apply (f_equal reverse) in Hrev. rewrite reverse_involutive in Hrev.
  rewrite reverse_cons in Hrev.
  apply collectedParents_untyped in Hrev.
  exact (proj1 (Forall_reverse _ _) Hrev).
Qed.

(** C6 (amended): [findElementForXmlNode] takes the definition of the
    outermost collected ancestor from its [xsi:type] alone, be the override
    there or not and resolvable or not: it starts from what
    [findTypeDefinitionFromNodeAttr] returns for that attribute, descends
    with [findXsdSubNode] by the local name of each further ancestor from the
    outside in, and makes the last descent by the local name of the node
    itself.  No root element is looked up. *)
Theorem C6_resolution_starts_from_the_xsi_type this node outer inner :
  reverse (collectedParents (parentChain node)) = outer :: inner →
  XsdLibrary.findElementForXmlNode this node =
    descend this
      (XsdLibrary.findTypeDefinitionFromNodeAttr this outer "type"
         (Some xsd.xsi))
      ((localName <$> inner) ++ [localName (element node)]).
Proof. intros Hrev. by apply findElementForXmlNode_descend. Qed.

(** C3: where the lookup should answer not-found it throws.
    [findElementType] on an element with neither an embedded type nor a
    [type] attribute reads a property of [null]; [findElementForXmlNode]
    does so when the resolution of an ancestor, on the way down to the node,
    finds nothing. *)
Theorem C3_not_found_is_thrown_as_TypeError
    this (elem : Element) node outer inner names1 names2 :
  xsd.getEmbeddedType elem = None →
  xsd.getTypeFromNodeAttr elem "type" None = None →
  reverse (collectedParents (parentChain node)) = outer :: inner →
  localName <$> inner = names1 ++ names2 →
  descend this
    (XsdLibrary.findTypeDefinitionFromNodeAttr this outer "type" (Some xsd.xsi))
    names1 = Return None →
  XsdLibrary.findElementType this elem = Throw TypeError ∧
  XsdLibrary.findElementForXmlNode this node = Throw TypeError.
Proof.
  intros Hemb Hattr Hrev Hnames Hlost. split.
  - unfold XsdLibrary.findElementType. by rewrite Hemb, Hattr.
  - rewrite (findElementForXmlNode_descend _ _ outer inner) by done.
    rewrite Hnames, <- app_assoc, descend_app, Hlost. simpl.
    by destruct names2.
Qed.

End instance_nodes.

(** ** Catalogue contents and first matches *)

Section first_matches.

Context {A B : Type}.
Implicit Types (f : A → option B) (l : list A).

Lemma head_omap_Some f l y :
  head (omap f l) = Some y ↔
  ∃ pre x post, l = pre ++ x :: post ∧ (∀ x', x' ∈ pre → f x' = None) ∧
                f x = Some y.
Proof.
  split.
  - induction l as [|x l IH]; simpl; [done|].
    destruct (f x) as [y'|] eqn:Hx; simpl.
    + intros [= ->]. exists [], x, l. split; [done|]. split; [|done].
      intros x' Hx'. by apply elem_of_nil in Hx'.
    + intros Hl. destruct (IH Hl) as (pre & x0 & post & -> & Hpre & Hx0).
      exists (x :: pre), x0, post. split; [done|]. split; [|done].
      intros x' [->|Hx']%elem_of_cons; [done|by apply Hpre].
  - intros (pre & x & post & -> & Hpre & Hx).
    induction pre as [|x' pre IH]; simpl.
    + by rewrite Hx.
    + rewrite (Hpre x') by left. apply IH.
      intros x'' Hx''. apply Hpre. by right.
Qed.

Lemma head_omap_None f l :
  head (omap f l) = None ↔ ∀ x, x ∈ l → f x = None.
Proof.
  induction l as [|x l IH]; simpl.
  - split; [|done]. intros _ x Hx. by apply elem_of_nil in Hx.
  - destruct (f x) as [y|] eqn:Hx; simpl.
    + split; [done|]. intros Hall. specialize (Hall x). rewrite Hx in Hall.
      discriminate Hall. by left.
    + rewrite IH. split.
      * intros Hall x' [->|Hx']%elem_of_cons; [done|by apply Hall].
      * intros Hall x' Hx'. apply Hall. by right.
Qed.

End first_matches.

Section catalogue_contents.

Context `{X : xsd.Api}.
Implicit Types (this : gmap string (list Document)) (regs : list Registration).

Lemma findElement_loop_head xsds name :
  XsdLibrary.findElement_loop xsds name =
    head (omap (λ d, xsd.findElement (DocumentNode d) name) xsds).
Proof.
  induction xsds as [|d xsds IH]; simpl; [done|].
  by destruct (xsd.findElement (DocumentNode d) name).
Qed.

Lemma findTypeByName_loop_head xsds name :
  XsdLibrary.findTypeByName_loop xsds name =
    head (omap (λ d, xsd.findTypeByName d name) xsds).
Proof.
  induction xsds as [|d xsds IH]; simpl; [done|].
  by destruct (xsd.findTypeByName d name).
Qed.

Lemma findElement_loop_app xsds1 xsds2 name :
  XsdLibrary.findElement_loop (xsds1 ++ xsds2) name =
    match XsdLibrary.findElement_loop xsds1 name with
    | Some e => Some e
    | None => XsdLibrary.findElement_loop xsds2 name
    end.
Proof.
  induction xsds1 as [|d xsds1 IH]; simpl; [done|].
  by destruct (xsd.findElement (DocumentNode d) name).
Qed.

Lemma addItems_from_empty regs key :
  addItems ∅ regs !! key =
    match registeredUnder key regs with
    | [] => None
    | ds => Some ds
    end.
Proof.
  destruct (registeredUnder key regs) as [|d ds] eqn:Hreg.
  - by apply addItems_absent.
  - pose proof (addItems_bucket ∅ regs key) as Hb.
    rewrite lookup_empty, Hreg in Hb. simpl in Hb.
    destruct (addItems ∅ regs !! key) as [bucket|]; simpl in Hb; by subst.
Qed.

(** X1: whatever the initial documents and the later calls of [addItem], the
    bucket of a key holds exactly the documents registered under that key, in
    call order and with repetitions, and a key nothing was registered under
    has no bucket. *)
Theorem X1_catalogue_holds_what_was_registered
    (basetypesXsd : string) (defs : option (list Document)) regs key :
  addItems (XsdLibrary.init basetypesXsd defs) regs !! key =
    match registeredUnder key
            (initialRegistrations basetypesXsd defs ++ regs) with
    | [] => None
    | ds => Some ds
    end.
Proof. rewrite init_addItems, <- addItems_app. apply addItems_from_empty. Qed.

(** X2: [addItem] touches one bucket only: in every namespace other than the
    one the document is registered under, [findElement] and [findTypeByName]
    answer as before. *)
Theorem X2_addItem_leaves_other_namespaces
    this (def : Document) (name : option string) (ns n : string) :
  registrationKey (def, name) ≠ ns →
  XsdLibrary.findElement (XsdLibrary.addItem this def name) ns n =
    XsdLibrary.findElement this ns n ∧
  XsdLibrary.findTypeByName (XsdLibrary.addItem this def name) ns n =
    XsdLibrary.findTypeByName this ns n.
Proof.
  intros Hkey. unfold XsdLibrary.findElement, XsdLibrary.findTypeByName,
    Library.getItem. simpl.
  by rewrite addItem_lookup, decide_False.
Qed.

(** X3: later registrations never change a lookup that succeeds: after
    further calls of [addItem] a lookup returns what it returned before, and
    only when that was nothing does it go on through the documents added to
    the namespace since, in the order of the calls. *)
Theorem X3_later_registrations_only_extend_the_search
    this regs (ns n : string) :
  XsdLibrary.findElement (addItems this regs) ns n =
    match XsdLibrary.findElement this ns n with
    | Some e => Some e
    | None => XsdLibrary.findElement_loop (registeredUnder ns regs) n
    end ∧
  XsdLibrary.findTypeByName (addItems this regs) ns n =
    match XsdLibrary.findTypeByName this ns n with
    | Some t => Some t
    | None => XsdLibrary.findTypeByName_loop (registeredUnder ns regs) n
    end.
Proof.
  unfold XsdLibrary.findElement, XsdLibrary.findTypeByName, Library.getItem.
  simpl. rewrite addItems_bucket.
  by rewrite findElement_loop_app, findTypeByName_loop_app.
Qed.

(** X4: [findElement] returns the element that the first document of the
    namespace, in registration order, has under the name, and returns [null]
    exactly when no document of the namespace has one. *)
Theorem X4_findElement_returns_the_first_match this (ns n : string) :
  (∀ e, XsdLibrary.findElement this ns n = Some e ↔
        ∃ pre d post,
          default [] (this !! ns) = pre ++ d :: post ∧
          (∀ d', d' ∈ pre → xsd.findElement (DocumentNode d') n = None) ∧
          xsd.findElement (DocumentNode d) n = Some e) ∧
  (XsdLibrary.findElement this ns n = None ↔
   ∀ d, d ∈ default [] (this !! ns) →
        xsd.findElement (DocumentNode d) n = None).
Proof.
  unfold XsdLibrary.findElement, Library.getItem. simpl.
  rewrite findElement_loop_head. split.
  - intros e. apply head_omap_Some.
  - apply head_omap_None.
Qed.

(** X5: [findTypeByName] returns the definition that the first document of
    the namespace, in registration order, has under the name, and returns
    [null] exactly when no document of the namespace has one. *)
Theorem X5_findTypeByName_returns_the_first_match this (ns n : string) :
  (∀ t, XsdLibrary.findTypeByName this ns n = Some t ↔
        ∃ pre d post,
          default [] (this !! ns) = pre ++ d :: post ∧
          (∀ d', d' ∈ pre → xsd.findTypeByName d' n = None) ∧
          xsd.findTypeByName d n = Some t) ∧
  (XsdLibrary.findTypeByName this ns n = None ↔
   ∀ d, d ∈ default [] (this !! ns) → xsd.findTypeByName d n = None).
Proof.
  unfold XsdLibrary.findTypeByName, Library.getItem. simpl.
  rewrite findTypeByName_loop_head. split.
  - intros t. apply head_omap_Some.
  - apply head_omap_None.
Qed.

(** X6: a name that is not empty decides the bucket, whatever target
    namespace the document declares: the document is appended to the bucket
    of the name and every other bucket stays as it is.  An empty name counts
    as no name. *)
Theorem X6_a_given_name_overrides_the_target_namespace
    this (def : Document) (n : string) :
  n ≠ "" →
  XsdLibrary.addItem this def (Some n) !! n =
    Some (default [] (this !! n) ++ [def]) ∧
  (∀ k, k ≠ n → XsdLibrary.addItem this def (Some n) !! k = this !! k) ∧
  XsdLibrary.addItem this def (Some "") = XsdLibrary.addItem this def None.
Proof.
  intros Hn.
  assert (Hkey : registrationKey (def, Some n) = n).
  { unfold registrationKey, js_or. simpl. by rewrite bool_decide_false. }
  split; [|split].
  - by rewrite addItem_lookup, decide_True.
  - intros k Hk. rewrite addItem_lookup, decide_False; [done|].
    by rewrite Hkey.
  - done.
Qed.

End catalogue_contents.

Section array_answers.

Context `{X : xsd.Api}.
Variable xsd_findTypeByName : Document → string → list Element.

Lemma findTypeByName_arrays_loop xsds name :
  XsdLibraryArrays.findTypeByName_loop xsd_findTypeByName xsds name =
    head (omap (λ d, head (xsd_findTypeByName d name)) xsds).
Proof.
  induction xsds as [|d xsds IH]; [done|].
  cbn [XsdLibraryArrays.findTypeByName_loop omap list_omap].
  destruct (xsd_findTypeByName d name) as [|e es]; [done|].
  by rewrite bool_decide_true by (simpl; lia).
Qed.

(** X7: the version of [findTypeByName] written for an [xsd] that answers
    with arrays returns the first entry of the first array, in registration
    order, that is not empty, and [null] when all are empty; it agrees with
    the other version whenever the single answer of [xsd.findTypeByName] is
    the first entry of the array. *)
Theorem X7_findTypeByName_over_arrays
    (this : gmap string (list Document)) (ns n : string) :
  (∀ d name, xsd.findTypeByName d name = head (xsd_findTypeByName d name)) →
  (∀ t, XsdLibraryArrays.findTypeByName xsd_findTypeByName this ns n = Some t ↔
        ∃ pre d post rest,
          default [] (this !! ns) = pre ++ d :: post ∧
          (∀ d', d' ∈ pre → xsd_findTypeByName d' n = []) ∧
          xsd_findTypeByName d n = t :: rest) ∧
  XsdLibraryArrays.findTypeByName xsd_findTypeByName this ns n =
    XsdLibrary.findTypeByName this ns n.
Proof.
  intros Hhead. unfold XsdLibraryArrays.findTypeByName,
    XsdLibrary.findTypeByName, Library.getItem. simpl.
  rewrite findTypeByName_arrays_loop, findTypeByName_loop_head. split.
  - intros t. rewrite head_omap_Some. split.
    + intros (pre & d & post & Hb & Hpre & Hd).
      apply head_Some in Hd as [rest Hd].
      exists pre, d, post, rest. split; [done|]. split; [|done].
      intros d' Hd'. apply head_None. by apply Hpre.
    + intros (pre & d & post & rest & Hb & Hpre & Hd).
      exists pre, d, post. split; [done|]. split; [|by rewrite Hd].
      intros d' Hd'. by rewrite Hpre.
  - f_equal. induction (default [] (this !! ns)) as [|d ds IH]; simpl; [done|].
    rewrite Hhead.
    destruct (head (xsd_findTypeByName d n)); [f_equal|]; exact IH.
Qed.

End array_answers.

(** ** More on walks along derivation chains *)

Section more_chain_walks.

Context `{X : xsd.Api}.
Implicit Types (this : gmap string (list Document)) (t node : Element)
  (ts : list Element).

Lemma complexType_loop_returns declared this t fuel elems r :
  XsdLibrary.complexType_loop declared fuel this elems (Some t) = Some r →
  ∃ ts, Chain (XsdLibrary.findExtendedType this) t ts.
Proof.
  revert t elems. induction fuel as [|fuel IH]; intros t elems Hr; simpl in Hr;
    [done|].
  destruct (XsdLibrary.findExtendedType this t) as [base|] eqn:Ht.
  - destruct (IH _ _ Hr) as [ts Hts]. exists (t :: ts). by eapply Chain_next.
  - exists [t]. by apply Chain_end.
Qed.

Lemma find_no_match {A} (p : A → bool) (l : list A) :
  (∀ x, x ∈ l → p x = false) → find p l = None.
Proof.
  induction l as [|x l IH]; intros Hall; simpl; [done|].
  rewrite (Hall x) by left. apply IH. intros y Hy. apply Hall. by right.
Qed.



(** X8: for a restriction chain that ends, [findBaseTypeFor] returns the
    [name] attribute of the last type of the chain; for a node without a
    restriction base that is the node's own [name]. *)
Theorem X8_findBaseTypeFor_names_the_end_of_the_chain this t ts fuel :
  Chain (XsdLibrary.findRestrictedType this) t ts →
  (length ts ≤ fuel)%nat →
  XsdLibrary.findBaseTypeFor fuel this t =
    Some (getAttribute (default t (last ts)) "name").
Proof. apply findBaseTypeFor_loop_chain. Qed.

(** X9: [getComplexTypeElements] and [getComplexTypeAsserts] follow the
    extensions without a bound: each of them returns exactly when the chain
    of extensions that starts at the type ends after finitely many types. *)
Theorem X9_complexType_walks_return_exactly_on_finite_chains this t :
  ((∃ fuel r, XsdLibrary.getComplexTypeElements fuel this t = Some r) ↔
   (∃ ts, Chain (XsdLibrary.findExtendedType this) t ts)) ∧
  ((∃ fuel r, XsdLibrary.getComplexTypeAsserts fuel this t = Some r) ↔
   (∃ ts, Chain (XsdLibrary.findExtendedType this) t ts)).
Proof.
  split; split.
  - intros (fuel & r & Hr). by eapply complexType_loop_returns.
  - intros [ts Hts]. eexists (length ts), _.
    by apply complexType_loop_chain.
  - intros (fuel & r & Hr). by eapply complexType_loop_returns.
  - intros [ts Hts]. eexists (length ts), _.
    by apply complexType_loop_chain.
Qed.

(** X10: a type none of whose children is an [xs:restriction] (a type
    derived by list or union, or a [restriction] of another namespace) has no
    restricted type, and [findBaseTypeFor] answers with the type's own
    [name]. *)
Theorem X10_type_without_restriction_is_its_own_base this node fuel :
  (∀ c, c ∈ children node →
        ¬ (namespaceURI c = Some xsd.xs ∧ localName c = "restriction")) →
  XsdLibrary.findRestrictedType this node = None ∧
  XsdLibrary.findBaseTypeFor (S fuel) this node =
    Some (getAttribute node "name").
Proof.
  intros Hnone.
  assert (Hr : XsdLibrary.findRestrictedType this node = None).
  { unfold XsdLibrary.findRestrictedType. rewrite find_no_match; [done|].
    intros c Hc. apply andb_false_iff.
    destruct (decide (namespaceURI c = Some xsd.xs)) as [Hns|Hns].
    - right. apply bool_decide_eq_false. intros Hl. by apply (Hnone c).
    - left. by apply bool_decide_eq_false. }
  split; [done|]. simpl. by rewrite Hr.
Qed.


End more_chain_walks.

(** ** More on facet collection *)

Section more_facet_collection.

Context `{X : xsd.Api}.
Implicit Types (this : gmap string (list Document)) (t f g : Element)
  (ts fs seen before : list Element) (st : XsdLibrary.FacetState)
  (r : list XsdLibrary.FacetEntry).

Lemma selectAfter_split {A} (keep : list A → A → bool) (b l l1 l2 : list A) x :
  selectAfter keep b l = l1 ++ x :: l2 →
  ∃ p q, l = p ++ x :: q ∧ keep (b ++ p) x = true ∧
         l1 = selectAfter keep b p.
Proof.
  revert b l1. induction l as [|y l IH]; intros b l1 Hsel; simpl in Hsel.
  - by destruct l1.
  - destruct (keep b y) eqn:Hy; simpl in Hsel.
    + destruct l1 as [|z l1]; simpl in Hsel; injection Hsel as Hz Hrest.
      * subst y. exists [], l. by rewrite app_nil_r.
      * subst z. destruct (IH _ _ Hrest) as (p & q & -> & Hkeep & ->).
        exists (y :: p), q. rewrite <- app_assoc in Hkeep.
        split; [done|]. split; [done|]. simpl. by rewrite Hy.
    + destruct (IH _ _ Hsel) as (p & q & -> & Hkeep & ->).
      exists (y :: p), q. rewrite <- app_assoc in Hkeep.
      split; [done|]. split; [done|]. simpl. by rewrite Hy.
Qed.

Lemma selectAfter_kept {A} (keep : list A → A → bool) (b p q : list A) x :
  keep (b ++ p) x = true → x ∈ selectAfter keep b (p ++ x :: q).
Proof.
  intros Hkeep. rewrite selectAfter_app. simpl. rewrite Hkeep.
  apply elem_of_app. right. by left.
Qed.

Lemma selectAfter_elem {A} (keep : list A → A → bool) (b l : list A) x :
  x ∈ selectAfter keep b l →
  ∃ p q, l = p ++ x :: q ∧ keep (b ++ p) x = true.
Proof.
  intros Hx. apply list_elem_of_split in Hx as (l1 & l2 & Hsel).
  destruct (selectAfter_split _ _ _ _ _ _ Hsel) as (p & q & ? & ? & _). eauto.
Qed.

Lemma Facet_in_result r f : XsdLibrary.Facet f ∈ r ↔ f ∈ plainFacets r.
Proof.
  unfold plainFacets. rewrite list_elem_of_omap. split.
  - intros Hf. by exists (XsdLibrary.Facet f).
  - intros ([f'|g'] & Hin & Heq); by simplify_eq.
Qed.

Lemma Enums_in_result r (group : list Element) :
  XsdLibrary.Enums group ∈ r ↔ group ∈ enumGroups r.
Proof.
  unfold enumGroups. rewrite list_elem_of_omap. split.
  - intros Hg. by exists (XsdLibrary.Enums group).
  - intros ([f'|g'] & Hin & Heq); by simplify_eq.
Qed.

(** What a run over a chain that ends returns, seen through the single
    facets and through the groups. *)
Lemma collectFacets_of_chain this t ts fuel :
  Chain (XsdLibrary.findRestrictedType this) t ts →
  (length ts ≤ fuel)%nat →
  ∃ r, XsdLibrary.collectFacets fuel this t = Some r ∧
       plainFacets r = selectAfter recordedPlain [] (walkFacets ts) ∧
       enumGroups r =
         take 1 (filter (λ group, length group ≠ 0%nat) (levelEnums <$> ts)).
Proof.
  intros Hc Hfuel. eexists. split; [by apply collectFacets_loop_chain|]. split.
  - by apply (levels_recorded []).
  - by rewrite levels_enums.
Qed.

(** X12: every entry of the result of [collectFacets] comes from the chain.
    A facet pushed by itself is a facet of some level and is not an
    enumeration; a group is not empty and is the list of the enumeration
    facets of one level. *)
Theorem X12_collected_entries_come_from_the_chain this t ts fuel :
  Chain (XsdLibrary.findRestrictedType this) t ts →
  (length ts ≤ fuel)%nat →
  ∃ r, XsdLibrary.collectFacets fuel this t = Some r ∧
       (∀ f, XsdLibrary.Facet f ∈ r →
             f ∈ walkFacets ts ∧ localName f ≠ "enumeration") ∧
       (∀ group, XsdLibrary.Enums group ∈ r →
             group ≠ [] ∧ ∃ t', t' ∈ ts ∧ group = levelEnums t').
Proof.
  intros Hc Hfuel.
  destruct (collectFacets_of_chain this t ts fuel Hc Hfuel)
    as (r & Hr & Hplain & Hgroups).
  exists r. split; [done|]. split.
  - intros f Hf. apply Facet_in_result in Hf. rewrite Hplain in Hf.
    apply selectAfter_elem in Hf as (p & q & HW & Hkeep).
    split.
    + rewrite HW. apply elem_of_app. right. by left.
    + unfold recordedPlain, isEnumeration in Hkeep.
      apply andb_true_iff in Hkeep as [Hne _].
      by apply negb_true_iff, bool_decide_eq_false in Hne.
  - intros group Hg. apply Enums_in_result in Hg. rewrite Hgroups in Hg.
    apply (subseteq_take 1) in Hg.
    apply list_elem_of_filter in Hg as [Hlen Hg].
    apply list_elem_of_fmap in Hg as (t' & -> & Ht').
    split; [|by eauto]. intros Hnil. by rewrite Hnil in Hlen.
Qed.

(** X13: a fixed facet is never lost: every facet of the chain that is an
    assertion or carries [fixed="true"] is in the result of
    [collectFacets], at whatever level it stands. *)
Theorem X13_fixed_facets_are_always_recorded this t ts fuel f :
  Chain (XsdLibrary.findRestrictedType this) t ts →
  (length ts ≤ fuel)%nat →
  f ∈ walkFacets ts →
  isFixedFacet f = true →
  ∃ r, XsdLibrary.collectFacets fuel this t = Some r ∧ XsdLibrary.Facet f ∈ r.
Proof.
  intros Hc Hfuel Hf Hfixed.
  destruct (collectFacets_of_chain this t ts fuel Hc Hfuel)
    as (r & Hr & Hplain & _).
  exists r. split; [done|]. apply Facet_in_result. rewrite Hplain.
  apply list_elem_of_split in Hf as (p & q & ->).
  apply selectAfter_kept. unfold recordedPlain. rewrite Hfixed.
  unfold isFixedFacet in Hfixed. by apply andb_true_iff in Hfixed as [-> _].
Qed.

(** X14: no kind of facet is dropped altogether: for every facet of the
    chain that is not an enumeration the result of [collectFacets] holds a
    facet of the same kind. *)
Theorem X14_every_kind_of_the_chain_is_recorded this t ts fuel f :
  Chain (XsdLibrary.findRestrictedType this) t ts →
  (length ts ≤ fuel)%nat →
  f ∈ walkFacets ts →
  localName f ≠ "enumeration" →
  ∃ r g, XsdLibrary.collectFacets fuel this t = Some r ∧
         XsdLibrary.Facet g ∈ r ∧ localName g = localName f.
Proof.
  intros Hc Hfuel Hf Hkind.
  destruct (collectFacets_of_chain this t ts fuel Hc Hfuel)
    as (r & Hr & Hplain & _).
  assert (Hname : localName f ∈ localName <$> walkFacets ts).
  { apply list_elem_of_fmap. eauto. }
  apply list_elem_of_split_l in Hname as (names1 & names2 & Hnames & Hfirst).
  apply fmap_app_inv in Hnames as (p & rest & -> & Hrest & HW).
  symmetry in Hrest.
  apply fmap_cons_inv in Hrest as (g & q & Hg & -> & ->).
  exists r, g. split; [done|]. split; [|done].
  apply Facet_in_result. rewrite Hplain, HW.
  apply selectAfter_kept. unfold recordedPlain, isEnumeration. simpl.
  rewrite Hg in Hfirst, Hkind.
  rewrite (bool_decide_false _ Hkind), (bool_decide_true _ Hfirst). simpl.
  apply orb_true_r.
Qed.

(** X15: a kind is repeated among the recorded facets only by fixed facets:
    a facet that [collectFacets] records after another one of its kind is an
    assertion or carries [fixed="true"]. *)
Theorem X15_a_repeated_kind_is_fixed this t ts fuel :
  Chain (XsdLibrary.findRestrictedType this) t ts →
  (length ts ≤ fuel)%nat →
  ∃ r, XsdLibrary.collectFacets fuel this t = Some r ∧
       ∀ l1 f l2 g,
         plainFacets r = l1 ++ f :: l2 → g ∈ l1 →
         localName g = localName f → isFixedFacet f = true.
Proof.
  intros Hc Hfuel.
  destruct (collectFacets_of_chain this t ts fuel Hc Hfuel)
    as (r & Hr & Hplain & _).
  exists r. split; [done|]. intros l1 f l2 g Hsplit Hg Hkind.
  rewrite Hplain in Hsplit.
  apply selectAfter_split in Hsplit as (p & q & _ & Hkeep & ->).
  apply selectAfter_elem in Hg as (p1 & p2 & -> & _).
  unfold recordedPlain in Hkeep. simpl in Hkeep.
  apply andb_true_iff in Hkeep as [_ Hkeep].
  apply orb_true_iff in Hkeep as [Hfixed|Hnew]; [done|].
  apply bool_decide_eq_true in Hnew. exfalso. apply Hnew.
  rewrite <- Hkind. apply list_elem_of_fmap. exists g. split; [done|].
  apply elem_of_app. right. by left.
Qed.

End more_facet_collection.

Section facet_levels.

Context `{X : xsd.Api}.
Implicit Types (this : gmap string (list Document)) (t f g : Element)
  (ts fs seen before : list Element) (st : XsdLibrary.FacetState)
  (r : list XsdLibrary.FacetEntry).

Lemma plainFacets_Facet fs : plainFacets (XsdLibrary.Facet <$> fs) = fs.
Proof. induction fs as [|f fs IH]; simpl; [done|]. by f_equal. Qed.

Lemma level_facets_added st fs :
  ∃ added,
    XsdLibrary.facets (fold_left XsdLibrary.processFacet fs st) =
      XsdLibrary.facets st ++ (XsdLibrary.Facet <$> added).
Proof.
  revert st. induction fs as [|f fs IH]; intros st; simpl.
  - exists []. simpl. by rewrite app_nil_r.
  - destruct (IH (XsdLibrary.processFacet st f)) as [added Hadded].
    rewrite Hadded. clear Hadded IH.
    destruct (isEnumeration f) eqn:Hf.
    + rewrite processFacet_enum by done.
      exists added. by destruct (bool_decide ("enumeration" ∈ _)).
    + rewrite processFacet_plain by done.
      destruct (negb _ || _); [|by exists added].
      exists (f :: added). simpl. by rewrite <- app_assoc.
Qed.

Lemma collectLevel_facets seen st t :
  plainFacets (XsdLibrary.facets st) = selectAfter recordedPlain [] seen →
  (∀ n, n ≠ "enumeration" →
        n ∈ XsdLibrary.foundFacetTypes st ↔ n ∈ localName <$> seen) →
  let group :=
    if bool_decide ("enumeration" ∈ XsdLibrary.foundFacetTypes st)
    then [] else levelEnums t in
  XsdLibrary.facets (XsdLibrary.collectLevel st t) =
    XsdLibrary.facets st ++
    (XsdLibrary.Facet <$>
       selectAfter recordedPlain seen (xsd.findRestrictingFacets t)) ++
    (if bool_decide (length group ≠ 0%nat)
     then [XsdLibrary.Enums group] else []).
Proof.
  intros Hplain Hfound group. unfold XsdLibrary.collectLevel.
  set (st0 := XsdLibrary.mkFacetState _ [] _).
  destruct (level_recorded seen st0 (xsd.findRestrictingFacets t))
    as [Hplain' _]; [done..|].
  destruct (level_enums st0 (xsd.findRestrictingFacets t)) as (Henums & _ & _).
  destruct (level_facets_added st0 (xsd.findRestrictingFacets t))
    as [added Hadded].
  simpl in Henums, Hadded. fold (levelEnums t) in Henums. fold group in Henums.
  assert (Hsel : added =
            selectAfter recordedPlain seen (xsd.findRestrictingFacets t)).
  { rewrite Hadded, plainFacets_app, plainFacets_Facet, Hplain in Hplain'.
    rewrite selectAfter_app in Hplain'. by apply app_inv_head in Hplain'. }
  rewrite Henums. subst added.
  destruct (bool_decide (length group ≠ 0%nat)); simpl.
  - by rewrite Hadded, <- app_assoc.
  - by rewrite Hadded, app_nil_r.
Qed.

Lemma levels_entries seen st (enumFound : bool) ts :
  plainFacets (XsdLibrary.facets st) = selectAfter recordedPlain [] seen →
  (∀ n, n ≠ "enumeration" →
        n ∈ XsdLibrary.foundFacetTypes st ↔ n ∈ localName <$> seen) →
  ("enumeration" ∈ XsdLibrary.foundFacetTypes st ↔ enumFound = true) →
  XsdLibrary.facets (fold_left XsdLibrary.collectLevel ts st) =
    XsdLibrary.facets st ++ levelEntries seen enumFound ts.
Proof.
  revert seen st enumFound.
  induction ts as [|t ts IH]; intros seen st enumFound Hplain Hfound Henum.
  - simpl. by rewrite app_nil_r.
  - cbn [fold_left levelEntries].
    assert (Hb : bool_decide ("enumeration" ∈ XsdLibrary.foundFacetTypes st)
                 = enumFound).
    { destruct enumFound.
      - apply bool_decide_eq_true. by apply Henum.
      - apply bool_decide_eq_false. intros Hin. by apply Henum in Hin. }
    pose proof (collectLevel_facets seen st t Hplain Hfound) as Hfacets.
    destruct (collectLevel_recorded seen st t Hplain Hfound)
      as [Hplain' Hfound'].
    destruct (collectLevel_enums st t) as [_ Henum'].
    simpl in Hfacets, Henum'. rewrite Hb in Hfacets, Henum'.
    rewrite (IH (seen ++ xsd.findRestrictingFacets t) _
               (enumFound ||
                bool_decide
                  (length (if enumFound then [] else levelEnums t) ≠ 0%nat)));
      [|done..|].
    + rewrite Hfacets. by rewrite <- !app_assoc.
    + rewrite Henum', orb_true_iff, bool_decide_eq_true, Henum. done.
Qed.

(** X16: the result of [collectFacets] is laid out level by level, the given
    type first: each level contributes the facets it has recorded singly, in
    document order, followed by its group of enumerations when it is the
    first level that has any. *)
Theorem X16_the_result_is_laid_out_level_by_level this t ts fuel :
  Chain (XsdLibrary.findRestrictedType this) t ts →
  (length ts ≤ fuel)%nat →
  XsdLibrary.collectFacets fuel this t = Some (levelEntries [] false ts).
Proof.
  intros Hc Hfuel. unfold XsdLibrary.collectFacets.
  rewrite (collectFacets_loop_chain _ _ ts) by done.
  f_equal. rewrite (levels_entries [] _ false); [done..|].
  simpl. split; [|done]. intros Hin. by apply elem_of_nil in Hin.
Qed.

End facet_levels.

(** ** More on instance nodes *)

Section more_instance_nodes.

Context `{X : xsd.Api}.
Implicit Types (this : gmap string (list Document)) (node : XmlNode)
  (ps pre post inner ancestors : list Element) (names : list string).

#[local] Arguments XsdLibrary.findXsdSubNode : simpl never.

Lemma collectedParents_all_untyped ancestors :
  Forall (λ a, hasXsiType a = false) ancestors →
  collectedParents ancestors = ancestors.
Proof.
  induction 1 as [|a rest Ha _ IH]; simpl; [done|]. by rewrite Ha, IH.
Qed.

Lemma collectedParents_cut pre a post :
  hasXsiType a = true →
  collectedParents (pre ++ a :: post) = collectedParents (pre ++ [a]).
Proof.
  intros Ha. induction pre as [|b pre IH]; simpl.
  - by rewrite Ha.
  - destruct (hasXsiType b); [done|]. by rewrite IH.
Qed.

(** X17: [findElementForXmlNode] can only succeed below an [xsi:type]: on a
    node none of whose ancestors carries one, and so on a node without
    ancestors, it throws a [TypeError], whatever the catalogue holds. *)
Theorem X17_without_an_xsi_type_above_the_call_throws this node :
  Forall (λ a, hasXsiType a = false) (parentChain node) →
  XsdLibrary.findElementForXmlNode this node = Throw TypeError.
Proof.
  intros Hnone. unfold XsdLibrary.findElementForXmlNode,
    xsd.getFirstFilteredAncestor.
  rewrite firstFiltered_collectParent. simpl.
  rewrite collectedParents_all_untyped by done.
  rewrite eachParent_untyped; [done|]. by apply Forall_reverse.
Qed.

(** X18: the ancestors above the nearest one that carries an [xsi:type] play
    no part: the result is the same as for a node whose chain of ancestors
    ends at that one. *)
Theorem X18_ancestors_above_the_xsi_type_are_ignored
    this node pre (a : Element) post :
  parentChain node = pre ++ a :: post →
  hasXsiType a = true →
  XsdLibrary.findElementForXmlNode this node =
    XsdLibrary.findElementForXmlNode this
      (mkXmlNode (element node) (pre ++ [a])).
Proof.
  intros Hchain Ha. unfold XsdLibrary.findElementForXmlNode,
    xsd.getFirstFilteredAncestor.
  rewrite !firstFiltered_collectParent. simpl.
  by rewrite Hchain, collectedParents_cut.
Qed.

(** X19: a miss at the last step is reported by [null], not thrown: when the
    [xsi:type] of the outermost collected ancestor and the descents through
    the further ancestors lead to a definition in which [findXsdSubNode]
    finds nothing under the name of the node, [findElementForXmlNode]
    returns [null]. *)
Theorem X19_a_miss_at_the_last_step_returns_null
    this node outer inner (def : Element) :
  reverse (collectedParents (parentChain node)) = outer :: inner →
  descend this
    (XsdLibrary.findTypeDefinitionFromNodeAttr this outer "type" (Some xsd.xsi))
    (localName <$> inner) = Return (Some def) →
  XsdLibrary.findXsdSubNode this (Some def) (localName (element node))
    = Return None →
  XsdLibrary.findElementForXmlNode this node = Return None.
Proof.
  intros Hrev Hdown Hlast.
  rewrite (findElementForXmlNode_descend _ _ outer inner) by done.
  rewrite descend_app, Hdown. simpl. by rewrite Hlast.
Qed.

End more_instance_nodes.

(** ** The methods on the sample schemas *)

Import Sample Examples.

Lemma C7_witness :
  XsdLibrary.addItem (XsdLibrary.init "" None) firstDocument None !! tns =
    Some (default [] (XsdLibrary.init "" None !! tns) ++ [firstDocument]) ∧
  XsdLibrary.addItem
    (XsdLibrary.addItem (XsdLibrary.init "" None) firstDocument None)
    firstDocument None !! tns =
    Some (default [] (XsdLibrary.init "" None !! tns)
          ++ [firstDocument; firstDocument]) ∧
  XsdLibrary.findTypeByName
    (XsdLibrary.addItem
       (XsdLibrary.addItem (XsdLibrary.init "" None) firstDocument None)
       secondDocument (Some tns))
    tns "T" = Some firstT ∧
  XsdLibrary.findTypeByName
    (XsdLibrary.addItem
       (XsdLibrary.addItem (XsdLibrary.init "" None) firstDocument None)
       firstDocument None)
    tns "T" = Some firstT.
Proof.
  apply (C7_registration_order_is_search_order
           (XsdLibrary.init "" None) firstDocument secondDocument
           None (Some tns) tns "T" firstT).
  - reflexivity.
  - reflexivity.
  - reflexivity.
  - vm_compute. intros d Hd. inversion Hd.
Defined.

Lemma C4_witness :
  XsdLibrary.addItem ∅ anonymousDocument None !! "null" =
    Some (default [] ((∅ : gmap string (list Document)) !! "null")
          ++ [anonymousDocument]) ∧
  ∃ bucket, XsdLibrary.init "" (Some [anonymousDocument]) !! "null"
              = Some bucket ∧ anonymousDocument ∈ bucket.
Proof.
  apply (C4_document_without_namespace_is_registered
           "" ∅ [anonymousDocument] anonymousDocument None).
  - reflexivity.
  - reflexivity.
  - left.
Defined.

(** C4, as stated, fails: constructing a catalogue from a document that has
    no target namespace raises nothing and leaves the document registered,
    under the key ["null"]. *)
Lemma C4_counterexample :
  getAttributeNS (documentElement anonymousDocument) None "targetNamespace"
    = None ∧
  XsdLibrary.init "" (Some [anonymousDocument]) !! "null"
    = Some [anonymousDocument].
Proof. split; reflexivity. Qed.

Lemma C10_witness :
  XsdLibrary.findElement
    (addItems (XsdLibrary.init "" (Some [firstDocument]))
              [(secondDocument, None)]) "urn:other" "root" = None ∧
  XsdLibrary.findTypeByName
    (addItems (XsdLibrary.init "" (Some [firstDocument]))
              [(secondDocument, None)]) "urn:other" "T" = None.
Proof.
  split.
  - apply (C10_unregistered_namespace_is_not_found
             "" (Some [firstDocument]) [(secondDocument, None)]
             "urn:other" "root").
    intros r Hr. vm_compute in Hr.
    repeat (apply elem_of_cons in Hr as [->|Hr]; [by vm_compute|]).
    by apply elem_of_nil in Hr.
  - apply (C10_unregistered_namespace_is_not_found
             "" (Some [firstDocument]) [(secondDocument, None)]
             "urn:other" "T").
    intros r Hr. vm_compute in Hr.
    repeat (apply elem_of_cons in Hr as [->|Hr]; [by vm_compute|]).
    by apply elem_of_nil in Hr.
Defined.

(** C1, as stated, fails: on two types that restrict each other no amount of
    running makes [findBaseTypeFor] or [collectFacets] return or raise. *)
Lemma C1_counterexample :
  XsdLibrary.findRestrictedType cyclicLibrary typeA_cyclic = Some typeB_cyclic ∧
  XsdLibrary.findRestrictedType cyclicLibrary typeB_cyclic = Some typeA_cyclic ∧
  ∀ fuel,
    XsdLibrary.findBaseTypeFor fuel cyclicLibrary typeA_cyclic = None ∧
    XsdLibrary.collectFacets fuel cyclicLibrary typeA_cyclic = None.
Proof.
  assert (HA : XsdLibrary.findRestrictedType cyclicLibrary typeA_cyclic
               = Some typeB_cyclic) by reflexivity.
  assert (HB : XsdLibrary.findRestrictedType cyclicLibrary typeB_cyclic
               = Some typeA_cyclic) by reflexivity.
  split; [done|]. split; [done|].
  assert (Hbase : ∀ fuel,
    XsdLibrary.findBaseTypeFor_loop fuel cyclicLibrary typeA_cyclic = None ∧
    XsdLibrary.findBaseTypeFor_loop fuel cyclicLibrary typeB_cyclic = None).
  { induction fuel as [|fuel [IHA IHB]]; [done|].
    cbn [XsdLibrary.findBaseTypeFor_loop]. by rewrite HA, HB. }
  assert (Hfacets : ∀ fuel st,
    XsdLibrary.collectFacets_loop fuel cyclicLibrary st (Some typeA_cyclic)
      = None ∧
    XsdLibrary.collectFacets_loop fuel cyclicLibrary st (Some typeB_cyclic)
      = None).
  { induction fuel as [|fuel IH]; intros st; [done|].
    cbn [XsdLibrary.collectFacets_loop]. rewrite HA, HB.
    split; apply IH. }
  intros fuel. split; [apply Hbase|apply Hfacets].
Qed.

Lemma C8_witness :
  XsdLibrary.getComplexTypeElements 2 extensionLibrary typeDerived =
    Some ([typeDerived; typeParent] ≫= xsd.getComplexTypeElements) ∧
  XsdLibrary.getComplexTypeAsserts 2 extensionLibrary typeDerived =
    Some ([typeDerived; typeParent] ≫= xsd.getComplexTypeAsserts).
Proof.
  apply (C8_complexType_members_concatenate_along_the_chain
           extensionLibrary typeDerived [typeDerived; typeParent] 2).
  - apply Chain_next with typeParent; [reflexivity|].
    apply Chain_end. reflexivity.
  - simpl. lia.
Defined.

(** C8, as stated, fails: on two complex types that extend each other no
    amount of running makes [getComplexTypeElements] or
    [getComplexTypeAsserts] return anything. *)
Lemma C8_counterexample :
  XsdLibrary.findExtendedType MoreExamples.cyclicExtensionLibrary
    MoreExamples.typeA_extending = Some MoreExamples.typeB_extending ∧
  XsdLibrary.findExtendedType MoreExamples.cyclicExtensionLibrary
    MoreExamples.typeB_extending = Some MoreExamples.typeA_extending ∧
  ∀ fuel,
    XsdLibrary.getComplexTypeElements fuel MoreExamples.cyclicExtensionLibrary
      MoreExamples.typeA_extending = None ∧
    XsdLibrary.getComplexTypeAsserts fuel MoreExamples.cyclicExtensionLibrary
      MoreExamples.typeA_extending = None.
Proof.
  assert (HA : XsdLibrary.findExtendedType MoreExamples.cyclicExtensionLibrary
                 MoreExamples.typeA_extending
               = Some MoreExamples.typeB_extending) by reflexivity.
  assert (HB : XsdLibrary.findExtendedType MoreExamples.cyclicExtensionLibrary
                 MoreExamples.typeB_extending
               = Some MoreExamples.typeA_extending) by reflexivity.
  split; [done|]. split; [done|].
  assert (Hloop : ∀ declared fuel elems,
    XsdLibrary.complexType_loop declared fuel
      MoreExamples.cyclicExtensionLibrary elems
      (Some MoreExamples.typeA_extending) = None ∧
    XsdLibrary.complexType_loop declared fuel
      MoreExamples.cyclicExtensionLibrary elems
      (Some MoreExamples.typeB_extending) = None).
  { intros declared. induction fuel as [|fuel IH]; intros elems; [done|].
    cbn [XsdLibrary.complexType_loop]. rewrite HA, HB. split; apply IH. }
  intros fuel. split; apply Hloop.
Qed.

Lemma enumLibrary_chain :
  Chain (XsdLibrary.findRestrictedType enumLibrary) typeColour
    [typeColour; typeBase; typeString].
Proof.
  apply Chain_next with typeBase; [reflexivity|].
  apply Chain_next with typeString; [reflexivity|].
  apply Chain_end. reflexivity.
Qed.

Lemma digitsLibrary_chain :
  Chain (XsdLibrary.findRestrictedType digitsLibrary) typePrice
    [typePrice; typeAmount; typeDecimal].
Proof.
  apply Chain_next with typeAmount; [reflexivity|].
  apply Chain_next with typeDecimal; [reflexivity|].
  apply Chain_end. reflexivity.
Qed.

Lemma C2_witness :
  ∃ r, XsdLibrary.collectFacets 3 enumLibrary typeColour = Some r ∧
       enumGroups r =
         take 1 (filter (λ g, length g ≠ 0%nat)
                   (levelEnums <$> [typeColour; typeBase; typeString])).
Proof.
  apply (C2_enumerations_of_the_nearest_level_only
           enumLibrary typeColour [typeColour; typeBase; typeString] 3).
  - apply enumLibrary_chain.
  - simpl. lia.
Defined.

(** C2, as stated, fails: [Colour] restricts [Base] and both declare an
    enumeration facet, yet the result holds the group of [Colour] alone and
    the enumeration of [Base] is in no group. *)
Lemma C2_counterexample :
  XsdLibrary.findRestrictedType enumLibrary typeColour = Some typeBase ∧
  levelEnums typeBase = [enumBlue] ∧
  XsdLibrary.collectFacets 3 enumLibrary typeColour
    = Some [XsdLibrary.Enums [enumRed]] ∧
  ¬ ∃ g, XsdLibrary.Enums g ∈ [XsdLibrary.Enums [enumRed]] ∧ enumBlue ∈ g.
Proof.
  split; [reflexivity|]. split; [reflexivity|]. split; [reflexivity|].
  intros (g & Hg & Hblue).
  apply list_elem_of_singleton in Hg. injection Hg as ->.
  apply list_elem_of_singleton in Hblue. discriminate Hblue.
Qed.

Lemma C5_witness :
  ∃ r, XsdLibrary.collectFacets 3 digitsLibrary typePrice = Some r ∧
       plainFacets r =
         selectAfter recordedPlain []
           (walkFacets [typePrice; typeAmount; typeDecimal]).
Proof.
  apply (C5_fixed_or_first_of_kind_is_recorded
           digitsLibrary typePrice [typePrice; typeAmount; typeDecimal] 3).
  - apply digitsLibrary_chain.
  - simpl. lia.
Defined.

(** C5, as stated, fails: [Price] declares [totalDigits] with [fixed="true"]
    and its base [Amount] declares [totalDigits] without fixing it, yet only
    the facet of [Price] is recorded. *)
Lemma C5_counterexample :
  XsdLibrary.findRestrictedType digitsLibrary typePrice = Some typeAmount ∧
  xsd.findRestrictingFacets typePrice = [digitsFixed] ∧
  getAttribute digitsFixed "fixed" = Some "true" ∧
  xsd.findRestrictingFacets typeAmount = [digitsPlain] ∧
  getAttribute digitsPlain "fixed" = None ∧
  XsdLibrary.collectFacets 3 digitsLibrary typePrice
    = Some [XsdLibrary.Facet digitsFixed] ∧
  XsdLibrary.Facet digitsPlain ∉ [XsdLibrary.Facet digitsFixed].
Proof.
  do 5 (split; [reflexivity|]). split; [reflexivity|].
  intros Hin. apply list_elem_of_singleton in Hin. discriminate Hin.
Qed.

Lemma C6_witness :
  XsdLibrary.findElementForXmlNode treeLibrary itemUnderTypedRoot =
    descend treeLibrary
      (XsdLibrary.findTypeDefinitionFromNodeAttr treeLibrary rootTyped "type"
         (Some xsd.xsi))
      ((localName <$> [midElem]) ++ [localName (element itemUnderTypedRoot)]).
Proof.
  apply (C6_resolution_starts_from_the_xsi_type
           treeLibrary itemUnderTypedRoot rootTyped [midElem]).
  reflexivity.
Defined.

(** C6, as stated, fails: [mid] lies under a [root] without [xsi:type]; the
    catalogue has the root element [root], in which [mid] is found, but
    [findElementForXmlNode] makes no root element lookup and throws. *)
Lemma C6_counterexample :
  hasXsiType rootPlain = false ∧
  XsdLibrary.findElement treeLibrary tns "root" = Some rootDef ∧
  XsdLibrary.findXsdSubNode treeLibrary (Some rootDef) "mid"
    = Return (Some midDef) ∧
  XsdLibrary.findElementForXmlNode treeLibrary midUnderPlainRoot
    = Throw TypeError.
Proof. repeat split; reflexivity. Qed.

Lemma C3_witness :
  XsdLibrary.findElementType treeLibrary bareElement = Throw TypeError ∧
  XsdLibrary.findElementForXmlNode treeLibrary itemUnderGhost = Throw TypeError.
Proof.
  apply (C3_not_found_is_thrown_as_TypeError
           treeLibrary bareElement itemUnderGhost rootTyped [ghostElem]
           ["ghost"] []).
  - reflexivity.
  - reflexivity.
  - reflexivity.
  - reflexivity.
  - reflexivity.
Defined.

(** ** Further runs on the sample schemas *)

Import MoreExamples.

Lemma codeLibrary_chain :
  Chain (XsdLibrary.findRestrictedType codeLibrary) typeCode
    [typeCode; typeWord; typeString].
Proof.
  apply Chain_next with typeWord; [reflexivity|].
  apply Chain_next with typeString; [reflexivity|].
  apply Chain_end. reflexivity.
Qed.

Lemma find_head_filter {A} (p : A → bool) (l : list A) :
  find p l = head (filter (λ x, p x = true) l).
Proof.
  induction l as [|x l IH]; [done|].
  rewrite filter_cons. simpl. destruct (p x) eqn:Hx.
  - by rewrite decide_True.
  - by rewrite decide_False.
Qed.

Lemma X2_witness :
  XsdLibrary.findElement
    (XsdLibrary.addItem (XsdLibrary.init "" (Some [firstDocument]))
       otherDocument None) tns "T" =
    XsdLibrary.findElement (XsdLibrary.init "" (Some [firstDocument])) tns "T" ∧
  XsdLibrary.findTypeByName
    (XsdLibrary.addItem (XsdLibrary.init "" (Some [firstDocument]))
       otherDocument None) tns "T" =
    XsdLibrary.findTypeByName (XsdLibrary.init "" (Some [firstDocument]))
      tns "T".
Proof.
  apply (X2_addItem_leaves_other_namespaces
           (XsdLibrary.init "" (Some [firstDocument])) otherDocument None
           tns "T").
  vm_compute. discriminate.
Defined.

Lemma X6_witness :
  XsdLibrary.addItem ∅ firstDocument (Some "urn:other") !! "urn:other" =
    Some (default [] ((∅ : gmap string (list Document)) !! "urn:other")
          ++ [firstDocument]) ∧
  (∀ k, k ≠ "urn:other" →
        XsdLibrary.addItem ∅ firstDocument (Some "urn:other") !! k =
          (∅ : gmap string (list Document)) !! k) ∧
  XsdLibrary.addItem ∅ firstDocument (Some "") =
    XsdLibrary.addItem ∅ firstDocument None.
Proof.
  apply (X6_a_given_name_overrides_the_target_namespace
           ∅ firstDocument "urn:other").
  discriminate.
Defined.

Lemma X7_witness :
  (∀ t, XsdLibraryArrays.findTypeByName findTypeByNameAll
          (XsdLibrary.init "" (Some [firstDocument; secondDocument])) tns "T"
          = Some t ↔
        ∃ pre d post rest,
          default []
            (XsdLibrary.init "" (Some [firstDocument; secondDocument]) !! tns)
            = pre ++ d :: post ∧
          (∀ d', d' ∈ pre → findTypeByNameAll d' "T" = []) ∧
          findTypeByNameAll d "T" = t :: rest) ∧
  XsdLibraryArrays.findTypeByName findTypeByNameAll
    (XsdLibrary.init "" (Some [firstDocument; secondDocument])) tns "T" =
  XsdLibrary.findTypeByName
    (XsdLibrary.init "" (Some [firstDocument; secondDocument])) tns "T".
Proof.
  apply (X7_findTypeByName_over_arrays findTypeByNameAll
           (XsdLibrary.init "" (Some [firstDocument; secondDocument]))
           tns "T").
  intros d name. apply find_head_filter.
Defined.

Lemma X8_witness :
  XsdLibrary.findBaseTypeFor 3 enumLibrary typeColour =
    Some (getAttribute
            (default typeColour (last [typeColour; typeBase; typeString]))
            "name").
Proof.
  apply (X8_findBaseTypeFor_names_the_end_of_the_chain
           enumLibrary typeColour [typeColour; typeBase; typeString] 3).
  - apply enumLibrary_chain.
  - simpl. lia.
Defined.

Lemma X10_witness :
  XsdLibrary.findRestrictedType enumLibrary typeList = None ∧
  XsdLibrary.findBaseTypeFor 1 enumLibrary typeList =
    Some (getAttribute typeList "name").
Proof.
  apply (X10_type_without_restriction_is_its_own_base enumLibrary typeList 0).
  intros c Hc. apply list_elem_of_singleton in Hc. subst c.
  intros [_ Hlocal]. discriminate Hlocal.
Defined.


Lemma X12_witness :
  ∃ r, XsdLibrary.collectFacets 3 codeLibrary typeCode = Some r ∧
       (∀ f, XsdLibrary.Facet f ∈ r →
             f ∈ walkFacets [typeCode; typeWord; typeString] ∧
             localName f ≠ "enumeration") ∧
       (∀ group, XsdLibrary.Enums group ∈ r →
             group ≠ [] ∧
             ∃ t', t' ∈ [typeCode; typeWord; typeString] ∧
                   group = levelEnums t').
Proof.
  apply (X12_collected_entries_come_from_the_chain
           codeLibrary typeCode [typeCode; typeWord; typeString] 3).
  - apply codeLibrary_chain.
  - simpl. lia.
Defined.

Lemma X13_witness :
  ∃ r, XsdLibrary.collectFacets 3 codeLibrary typeCode = Some r ∧
       XsdLibrary.Facet wordLengthFixed ∈ r.
Proof.
  apply (X13_fixed_facets_are_always_recorded
           codeLibrary typeCode [typeCode; typeWord; typeString] 3
           wordLengthFixed).
  - apply codeLibrary_chain.
  - simpl. lia.
  - vm_compute. do 5 right. left.
  - reflexivity.
Defined.

Lemma X14_witness :
  ∃ r g, XsdLibrary.collectFacets 3 codeLibrary typeCode = Some r ∧
         XsdLibrary.Facet g ∈ r ∧ localName g = localName wordLength.
Proof.
  apply (X14_every_kind_of_the_chain_is_recorded
           codeLibrary typeCode [typeCode; typeWord; typeString] 3 wordLength).
  - apply codeLibrary_chain.
  - simpl. lia.
  - vm_compute. do 3 right. left.
  - discriminate.
Defined.

Lemma X15_witness :
  ∃ r, XsdLibrary.collectFacets 3 codeLibrary typeCode = Some r ∧
       ∀ l1 f l2 g,
         plainFacets r = l1 ++ f :: l2 → g ∈ l1 →
         localName g = localName f → isFixedFacet f = true.
Proof.
  apply (X15_a_repeated_kind_is_fixed
           codeLibrary typeCode [typeCode; typeWord; typeString] 3).
  - apply codeLibrary_chain.
  - simpl. lia.
Defined.

Lemma X16_witness :
  XsdLibrary.collectFacets 3 codeLibrary typeCode =
    Some (levelEntries [] false [typeCode; typeWord; typeString]).
Proof.
  apply (X16_the_result_is_laid_out_level_by_level
           codeLibrary typeCode [typeCode; typeWord; typeString] 3).
  - apply codeLibrary_chain.
  - simpl. lia.
Defined.

Lemma X17_witness :
  XsdLibrary.findElementForXmlNode treeLibrary itemUnderPlainRoot
    = Throw TypeError.
Proof.
  apply (X17_without_an_xsi_type_above_the_call_throws
           treeLibrary itemUnderPlainRoot).
  repeat constructor.
Defined.

Lemma X18_witness :
  XsdLibrary.findElementForXmlNode treeLibrary itemUnderNestedRoot =
    XsdLibrary.findElementForXmlNode treeLibrary
      (mkXmlNode (element itemUnderNestedRoot) ([midElem] ++ [rootTyped])).
Proof.
  apply (X18_ancestors_above_the_xsi_type_are_ignored
           treeLibrary itemUnderNestedRoot [midElem] rootTyped [ghostElem]).
  - reflexivity.
  - reflexivity.
Defined.

Lemma X19_witness :
  XsdLibrary.findElementForXmlNode treeLibrary ghostUnderMid = Return None.
Proof.
  apply (X19_a_miss_at_the_last_step_returns_null
           treeLibrary ghostUnderMid rootTyped [midElem] midDef).
  - reflexivity.
  - reflexivity.
  - reflexivity.
Defined.
